(** * The crazyflie position controller (controller_no_tf.py)

    A shallow embedding of [Controller] from
    [crazyflie_controller/scripts/controller_no_tf.py] and the properties
    of its flight state machine.

    Conventions of the embedding.
    - Python floats are read as exact rationals ([Q]); equalities between
      computed numbers are stated with [==].  The takeoff ramp [thrust] is
      a Python [int] and is kept in [Z].
    - ROS time is a rational number of seconds.  Every read of the clock
      ([rospy.Time.now], the wall clock of a PID loop) takes the next
      value of a sequence [clock : nat -> Q]; nothing is assumed about it.
    - The publisher [pubNav] and the ROS log are the lists of what was
      published and logged, oldest first.
    - A Python exception ends the computation with [Raise].
    - Subscriber and service callbacks are delivered between two
      iterations of the loop of [run], never in the middle of one. *)

From Stdlib Require Import ZArith QArith Lqa Lia List String Bool.
Import ListNotations.

Open Scope Q_scope.

(** ** Messages (geometry_msgs) *)

Record Vector3 := mkVector3 { vx : Q; vy : Q; vz : Q }.

Record Quaternion := mkQuaternion { qx : Q; qy : Q; qz : Q; qw : Q }.

(** [Pose()] has every field [0.0]. *)
Record Pose := mkPose { position : Vector3; orientation : Quaternion }.

Record Twist := mkTwist { linear : Vector3; angular : Vector3 }.

(** [header.stamp], [transform.translation], [transform.rotation]. *)
Record TransformStamped := mkTransformStamped
  { stamp : Q; translation : Vector3; rotation : Quaternion }.

Definition Vector3_0 : Vector3 := mkVector3 0 0 0.

(** [Twist()] *)
Definition Twist_0 : Twist := mkTwist Vector3_0 Vector3_0.

(** [Pose()] *)
Definition Pose_0 : Pose := mkPose Vector3_0 (mkQuaternion 0 0 0 0).

Definition set_vz (v : Vector3) (a : Q) : Vector3 := mkVector3 (vx v) (vy v) a.

Definition set_linear_z (m : Twist) (a : Q) : Twist :=
  mkTwist (set_vz (linear m) a) (angular m).

Definition set_position_z (p : Pose) (a : Q) : Pose :=
  mkPose (set_vz (position p) a) (orientation p).

(** ** Comparisons of floats *)

Definition Qgtb (a b : Q) : bool := negb (Qle_bool a b).

(** ** The PID loop (module [pid], class [PID]) *)

(** Modelled from the spec: the class [PID] of the module [pid], which
    the controller imports and which is not among the sources.  The
    parameters are taken in the order in which the data model lists them
    (proportional gain, integral gain, derivative gain, output min,
    output max, label); the mutable state is the accumulated integral,
    the previous error and the previous timestamp.  The previous error is
    undefined ([None]) until the first [update] after construction or
    [reset]; so is the previous timestamp until the first [update]. *)
Record PID := mkPID
  { kp : Q; ki : Q; kd : Q; minOutput : Q; maxOutput : Q; name : string;
    integral : Q; previousError : option Q; previousTime : option Q }.

(** Modelled from the spec: the constructor of [PID]. *)
Definition PID_init (kp ki kd minOutput maxOutput : Q) (name : string) : PID :=
  mkPID kp ki kd minOutput maxOutput name 0 None None.

Definition set_integral (p : PID) (i : Q) : PID :=
  mkPID (kp p) (ki p) (kd p) (minOutput p) (maxOutput p) (name p)
        i (previousError p) (previousTime p).

(** Modelled from the spec: [PID.reset], which zeroes the integral
    accumulator and the previous-error state and leaves gains and limits
    as they are. *)
Definition reset (p : PID) : PID :=
  mkPID (kp p) (ki p) (kd p) (minOutput p) (maxOutput p) (name p)
        0 None (previousTime p).

(** Modelled from the spec: the clamp of the raw sum to [[min, max]]. *)
Definition clamp (lo hi a : Q) : Q :=
  if Qgtb lo a then lo else if Qgtb a hi then hi else a.

(** Modelled from the spec: [PID.update(setpoint, measurement)] at wall
    clock [now].  The error is [setpoint - measurement]; the derivative
    term is skipped when no previous error is defined; the raw sum is
    [kp*error + ki*integral + kd*derivative]; the integral accumulates
    [error * dt] unconditionally; the raw sum is clamped. *)
Definition update (p : PID) (now setpoint measurement : Q) : Q * PID :=
  let error := setpoint - measurement in
  let dt := match previousTime p with Some t => now - t | None => 0 end in
  let derivative :=
    match previousError p with Some e => (error - e) / dt | None => 0 end in
  let raw := kp p * error + ki p * integral p + kd p * derivative in
  (clamp (minOutput p) (maxOutput p) raw,
   mkPID (kp p) (ki p) (kd p) (minOutput p) (maxOutput p) (name p)
         (integral p + error * dt) (Some error) (Some now)).

(** ** The controller object *)

Inductive State := Idle | Automatic | TakingOff | Landing.

Definition State_eqb (a b : State) : bool :=
  match a, b with
  | Idle, Idle | Automatic, Automatic
  | TakingOff, TakingOff | Landing, Landing => true
  | _, _ => false
  end.

(** The attributes of [Controller].  [targetZ] does not exist until the
    takeoff transition assigns it. *)
Record Controller := mkController
  { frame : string;
    pidX : PID; pidY : PID; pidZ : PID; pidYaw : PID;
    state : State;
    goal : Pose;
    lastTf : option TransformStamped;
    targetZ : option Q }.

(** [Controller.__init__] *)
Definition Controller_init (frame : string) : Controller :=
  mkController frame
    (PID_init 35 10 0.0 (-20) 20 "x")
    (PID_init (-35) (-10) (-0.0) (-20) 20 "y")
    (PID_init 4000 3000.0 2000.0 10000 60000 "z")
    (PID_init (-50.0) 0.0 0.0 (-200.0) 200.0 "yaw")
    Idle Pose_0 None None.

Definition set_pidX (c : Controller) (p : PID) : Controller :=
  mkController (frame c) p (pidY c) (pidZ c) (pidYaw c)
               (state c) (goal c) (lastTf c) (targetZ c).

Definition set_pidY (c : Controller) (p : PID) : Controller :=
  mkController (frame c) (pidX c) p (pidZ c) (pidYaw c)
               (state c) (goal c) (lastTf c) (targetZ c).

Definition set_pidZ (c : Controller) (p : PID) : Controller :=
  mkController (frame c) (pidX c) (pidY c) p (pidYaw c)
               (state c) (goal c) (lastTf c) (targetZ c).

Definition set_pidYaw (c : Controller) (p : PID) : Controller :=
  mkController (frame c) (pidX c) (pidY c) (pidZ c) p
               (state c) (goal c) (lastTf c) (targetZ c).

Definition set_state (c : Controller) (s : State) : Controller :=
  mkController (frame c) (pidX c) (pidY c) (pidZ c) (pidYaw c)
               s (goal c) (lastTf c) (targetZ c).

Definition set_goal (c : Controller) (g : Pose) : Controller :=
  mkController (frame c) (pidX c) (pidY c) (pidZ c) (pidYaw c)
               (state c) g (lastTf c) (targetZ c).

Definition set_lastTf (c : Controller) (t : option TransformStamped)
  : Controller :=
  mkController (frame c) (pidX c) (pidY c) (pidZ c) (pidYaw c)
               (state c) (goal c) t (targetZ c).

Definition set_targetZ (c : Controller) (a : option Q) : Controller :=
  mkController (frame c) (pidX c) (pidY c) (pidZ c) (pidYaw c)
               (state c) (goal c) (lastTf c) a.

(** [Controller.pidReset] *)
Definition pidReset (c : Controller) : Controller :=
  let c := set_pidX c (reset (pidX c)) in
  let c := set_pidZ c (reset (pidZ c)) in
  let c := set_pidZ c (reset (pidZ c)) in
  set_pidYaw c (reset (pidYaw c)).

(** [Controller._poseChanged] *)
Definition _poseChanged (c : Controller) (data : Pose) : Controller :=
  set_goal c data.

(** [Controller._tfChanged] *)
Definition _tfChanged (c : Controller) (data : TransformStamped) : Controller :=
  set_lastTf c (Some data).

(** ** numpy arrays and tf.transformations *)

(** A [float64] array of shape (4,) and one of shape (4, 4), by rows. *)
Record Vec4 := mkVec4 { v0 : Q; v1 : Q; v2 : Q; v3 : Q }.

Record Mat4 := mkMat4 { row0 : Vec4; row1 : Vec4; row2 : Vec4; row3 : Vec4 }.

Definition inner (a b : Vec4) : Q :=
  v0 a * v0 b + v1 a * v1 b + v2 a * v2 b + v3 a * v3 b.

(** [m.dot(v)] *)
Definition dot (m : Mat4) (v : Vec4) : Vec4 :=
  mkVec4 (inner (row0 m) v) (inner (row1 m) v)
         (inner (row2 m) v) (inner (row3 m) v).

(** The four functions of the library [tf.transformations] that [run]
    calls.  The library is not part of the repository: the controller is
    modelled over any implementation of them. *)
Class Transformations := mkTransformations
  { quaternion_matrix : Vec4 -> Mat4;
    quaternion_inverse : Vec4 -> Vec4;
    translation_matrix : Q * Q * Q -> Mat4;
    euler_from_quaternion : Vec4 -> Q * Q * Q }.

(** What the library documents of its matrices: [translation_matrix]
    is the identity with the direction in its last column, and
    [quaternion_matrix] is homogeneous (last row and last column are
    those of the identity). *)
Class TransformationsLaws (T : Transformations) : Prop :=
  { translation_matrix_eq : forall a b c,
      translation_matrix (a, b, c) =
      mkMat4 (mkVec4 1 0 0 a) (mkVec4 0 1 0 b)
             (mkVec4 0 0 1 c) (mkVec4 0 0 0 1);
    quaternion_matrix_column : forall q,
      v3 (row0 (quaternion_matrix q)) = 0 /\
      v3 (row1 (quaternion_matrix q)) = 0 /\
      v3 (row2 (quaternion_matrix q)) = 0;
    quaternion_matrix_row : forall q,
      row3 (quaternion_matrix q) = mkVec4 0 0 0 1 }.

(** ** The process: controller, loop variable, clock, publisher, log *)

Inductive Level := INFO | WARN | ERROR.

Inductive LogArg := NoArg | FloatArg (a : Q) | StrArg (s : string).

Record LogMsg := mkLogMsg { level : Level; text : string; arg : LogArg }.

Record World := mkWorld
  { self : Controller;
    thrust : Z;
    reads : nat;
    pubNav : list Twist;
    rosout : list LogMsg }.

Definition set_self (w : World) (c : Controller) : World :=
  mkWorld c (thrust w) (reads w) (pubNav w) (rosout w).

Definition set_thrust (w : World) (t : Z) : World :=
  mkWorld (self w) t (reads w) (pubNav w) (rosout w).

Inductive exn := AttributeError | ZeroDivisionError.

Inductive Res (A : Type) := Ok (a : A) | Raise (e : exn).
Arguments Ok {A} a.
Arguments Raise {A} e.

Definition M (A : Type) : Type := World -> Res (A * World).

Definition ret {A} (a : A) : M A := fun w => Ok (a, w).

Definition bind {A B} (m : M A) (k : A -> M B) : M B :=
  fun w => match m w with
           | Ok (a, w') => k a w'
           | Raise e => Raise e
           end.

Definition raise {A} (e : exn) : M A := fun _ => Raise e.

Declare Scope ros_scope.
Delimit Scope ros_scope with ros.
Notation "x <- m ;; k" := (bind m (fun x => k))
  (at level 61, m at next level, right associativity) : ros_scope.
Notation "m ;; k" := (bind m (fun _ => k))
  (at level 61, right associativity) : ros_scope.
Open Scope ros_scope.

Definition get_self : M Controller := fun w => Ok (self w, w).

Definition put_self (c : Controller) : M unit := fun w => Ok (tt, set_self w c).

Definition get_thrust : M Z := fun w => Ok (thrust w, w).

Definition put_thrust (t : Z) : M unit := fun w => Ok (tt, set_thrust w t).

(** [self.pubNav.publish(msg)] *)
Definition publish (msg : Twist) : M unit :=
  fun w => Ok (tt, mkWorld (self w) (thrust w) (reads w)
                           (pubNav w ++ [msg]) (rosout w)).

Definition log (l : Level) (text : string) (a : LogArg) : M unit :=
  fun w => Ok (tt, mkWorld (self w) (thrust w) (reads w) (pubNav w)
                           (rosout w ++ [mkLogMsg l text a])).

Definition loginfo := log INFO.
Definition logwarn := log WARN.
Definition logerr := log ERROR.

(** Python's [a / b] on floats. *)
Definition truediv (a b : Q) : M Q :=
  if Qeq_bool b 0 then raise ZeroDivisionError else ret (a / b).

(** [Controller._takeoff] *)
Definition _takeoff : M unit :=
  loginfo "Takeoff requested!" NoArg ;;
  c <- get_self ;;
  put_self (set_state c TakingOff).

(** [Controller._land] *)
Definition _land : M unit :=
  loginfo "Landing requested!" NoArg ;;
  c <- get_self ;;
  put_self (set_state c Landing).

Section Run.

Context {T : Transformations}.

(** The successive values of the clock. *)
Variable clock : nat -> Q.

(** [rospy.Time.now()], [rospy.get_time()] *)
Definition get_time : M Q :=
  fun w => Ok (clock (reads w),
               mkWorld (self w) (thrust w) (S (reads w)) (pubNav w) (rosout w)).

(** Modelled from the spec: a call [self.pidA.update(setpoint, measurement)],
    which reads the wall clock and updates the loop in place. *)
Definition call_update (get : Controller -> PID)
    (set : Controller -> PID -> Controller) (setpoint measurement : Q) : M Q :=
  now <- get_time ;;
  c <- get_self ;;
  put_self (set c (snd (update (get c) now setpoint measurement))) ;;
  ret (fst (update (get c) now setpoint measurement)).

(** [Controller.getTransform].  The result is what [run] binds to [r]
    and tests with [if r:]. *)
Definition getTransform (source_frame target_frame : string)
  : M (option (Vector3 * Quaternion * Q)) :=
  now <- get_time ;;
  c <- get_self ;;
  match lastTf c with
  | None => raise AttributeError
  | Some tf =>
      let t := stamp tf in
      let delta := (now - t) * 1000 in
      (if Qgtb delta 25
       then logwarn "High TF Latency: %f ms." (FloatArg delta)
       else ret tt) ;;
      ret (Some (translation tf, rotation tf, t))
  end.

Definition could_not_transform : M unit :=
  c <- get_self ;;
  logerr "Could not transform from /world to %s." (StrArg (frame c)).

(** Lines 76-93 of [run]: [if self.state == Controller.TakingOff: ...] *)
Definition run_TakingOff : M unit :=
  c <- get_self ;;
  if State_eqb (state c) TakingOff then
    r <- getTransform "/world" (frame c) ;;
    match r with
    | Some (position, quaternion, t) =>
        thrust <- get_thrust ;;
        if Qgtb (vz position) 0.05 || (50000 <? thrust)%Z then
          c <- get_self ;;
          put_self (pidReset c) ;;
          c <- get_self ;;
          i <- truediv (inject_Z thrust) (ki (pidZ c)) ;;
          put_self (set_pidZ c (set_integral (pidZ c) i)) ;;
          c <- get_self ;;
          put_self (set_targetZ c (Some 0.5)) ;;
          c <- get_self ;;
          put_self (set_state c Automatic) ;;
          put_thrust 0
        else
          put_thrust (thrust + 100) ;;
          thrust <- get_thrust ;;
          let msg := Twist_0 in
          let msg := set_linear_z msg (inject_Z thrust) in
          publish msg
    | None => could_not_transform
    end
  else ret tt.

(** Lines 95-105 of [run]: [if self.state == Controller.Landing: ...] *)
Definition run_Landing : M unit :=
  c <- get_self ;;
  if State_eqb (state c) Landing then
    put_self (set_goal c (set_position_z (goal c) 0.05)) ;;
    r <- getTransform "/world" (frame c) ;;
    match r with
    | Some (position, quaternion, t) =>
        if Qle_bool (vz position) 0.1 then
          c <- get_self ;;
          put_self (set_state c Idle) ;;
          let msg := Twist_0 in
          publish msg
        else ret tt
    | None => could_not_transform
    end
  else ret tt.

(** Lines 112-122 of [run]: the goal position in the frame of the
    vehicle, as a homogeneous vector. *)
Definition target_pos (pos : Vector3) (quaternion : Quaternion)
    (goal : Pose) : Vec4 :=
  let goal_vec :=
    mkVec4 (vx (position goal)) (vy (position goal)) (vz (position goal)) 1 in
  let quaternion :=
    mkVec4 (qx quaternion) (qy quaternion) (qz quaternion) (qw quaternion) in
  let rot_matrix := quaternion_matrix (quaternion_inverse quaternion) in
  let trans_matrix := translation_matrix (- vx pos, - vy pos, - vz pos) in
  dot rot_matrix (dot trans_matrix goal_vec).

(** Lines 124-130 of [run]: the Euler angles of the vehicle and of the
    goal. *)
Definition eulerIs (quaternion : Quaternion) : Q * Q * Q :=
  euler_from_quaternion
    (mkVec4 (qx quaternion) (qy quaternion) (qz quaternion) (qw quaternion)).

Definition eulerGoal (goal : Pose) : Q * Q * Q :=
  euler_from_quaternion
    (mkVec4 (qx (orientation goal)) (qy (orientation goal))
            (qz (orientation goal)) (qw (orientation goal))).

(** Lines 107-140 of [run]:
    [if self.state == Controller.Automatic or self.state == Controller.Landing: ...].
    The divisions by [target_pos[3]] are divisions of numpy floats, which
    do not raise. *)
Definition run_Automatic : M unit :=
  c <- get_self ;;
  if State_eqb (state c) Automatic || State_eqb (state c) Landing then
    r <- getTransform "/world" (frame c) ;;
    match r with
    | Some (position, quaternion, t) =>
        c <- get_self ;;
        let target_pos := target_pos position quaternion (goal c) in
        let eulerIs := eulerIs quaternion in
        let eulerGoal := eulerGoal (goal c) in
        let msg := Twist_0 in
        lx <- call_update pidX set_pidX 0.0 (v0 target_pos / v3 target_pos) ;;
        ly <- call_update pidY set_pidY 0.0 (v1 target_pos / v3 target_pos) ;;
        lz <- call_update pidZ set_pidZ 0.0 (v2 target_pos / v3 target_pos) ;;
        az <- call_update pidYaw set_pidYaw (snd eulerIs) (snd eulerGoal) ;;
        let msg := mkTwist (mkVector3 lx ly lz)
                           (mkVector3 (vx (angular msg)) (vy (angular msg)) az) in
        publish msg
    | None => could_not_transform
    end
  else ret tt.

(** Lines 142-144 of [run]: [if self.state == Controller.Idle: ...] *)
Definition run_Idle : M unit :=
  c <- get_self ;;
  if State_eqb (state c) Idle then
    let msg := Twist_0 in
    publish msg
  else ret tt.

(** One iteration of the second loop of [run] (lines 75-144). *)
Definition tick : M unit :=
  now <- get_time ;;
  run_TakingOff ;;
  run_Landing ;;
  run_Automatic ;;
  run_Idle.

(** What the Automatic branch does with the four loops when the clock
    has been read [n] times: the command it assembles and the controller
    it leaves. *)
Definition pid_step (c : Controller) (tf : TransformStamped) (n : nat)
  : Twist * Controller :=
  let tp := target_pos (translation tf) (rotation tf) (goal c) in
  let ux := update (pidX c) (clock n) 0.0 (v0 tp / v3 tp) in
  let uy := update (pidY c) (clock (S n)) 0.0 (v1 tp / v3 tp) in
  let uz := update (pidZ c) (clock (S (S n))) 0.0 (v2 tp / v3 tp) in
  let uw := update (pidYaw c) (clock (S (S (S n))))
                   (snd (eulerIs (rotation tf))) (snd (eulerGoal (goal c))) in
  (mkTwist (mkVector3 (fst ux) (fst uy) (fst uz)) (mkVector3 0 0 (fst uw)),
   set_pidYaw (set_pidZ (set_pidY (set_pidX c (snd ux)) (snd uy)) (snd uz))
              (snd uw)).

(** What the other nodes send: a message on the topic [goal], a message
    on the topic [self.frame], a call of the service [takeoff] or of the
    service [land]. *)
Inductive Callback :=
| goal_msg (data : Pose)
| tf_msg (data : TransformStamped)
| takeoff_srv
| land_srv.

Definition deliver (cb : Callback) : M unit :=
  match cb with
  | goal_msg data => c <- get_self ;; put_self (_poseChanged c data)
  | tf_msg data => c <- get_self ;; put_self (_tfChanged c data)
  | takeoff_srv => _takeoff
  | land_srv => _land
  end.

Fixpoint deliver_all (cbs : list Callback) : M unit :=
  match cbs with
  | [] => ret tt
  | cb :: cbs => deliver cb ;; deliver_all cbs
  end.

(** A schedule has one entry for each time [rospy.is_shutdown()] answers
    no: the callbacks that run during the [rospy.sleep] that follows.
    At the end of the schedule the node is shut down. *)
Definition Schedule := list (list Callback).

(** The first loop of [run] (lines 68-72); it returns what is left of
    the schedule. *)
Fixpoint wait_for_tf (sched : Schedule) : M Schedule :=
  match sched with
  | [] => ret []
  | cbs :: rest =>
      c <- get_self ;;
      match lastTf c with
      | Some _ => ret sched
      | None =>
          logwarn ("Waiting for " ++ frame c) NoArg ;;
          deliver_all cbs ;;
          wait_for_tf rest
      end
  end.

(** The second loop of [run] (lines 74-146). *)
Fixpoint control_loop (sched : Schedule) : M unit :=
  match sched with
  | [] => ret tt
  | cbs :: rest => tick ;; deliver_all cbs ;; control_loop rest
  end.

(** [Controller.run] *)
Definition run (sched : Schedule) : M unit :=
  put_thrust 0 ;;
  rest <- wait_for_tf sched ;;
  control_loop rest.

End Run.

(** The process when [run] is called on a new controller. *)
Definition World_init (frame : string) : World :=
  mkWorld (Controller_init frame) 0 0 [] [].

(** ** Auxiliary definitions for the statements *)

(** The age in milliseconds of the sample [tf] at time [now], and what
    [getTransform] logs about it. *)
Definition latency_ms (now : Q) (tf : TransformStamped) : Q :=
  (now - stamp tf) * 1000.

Definition latency_log (now : Q) (tf : TransformStamped) : list LogMsg :=
  if Qgtb (latency_ms now tf) 25
  then [mkLogMsg WARN "High TF Latency: %f ms." (FloatArg (latency_ms now tf))]
  else [].

(** The controller after the takeoff transition, before the loop
    variable [thrust] is cleared. *)
Definition takeoff_done (c : Controller) (th : Z) : Controller :=
  let c := pidReset c in
  let c := set_pidZ c (set_integral (pidZ c) (inject_Z th / ki (pidZ c))) in
  let c := set_targetZ c (Some 0.5) in
  set_state c Automatic.

(** The controller once the Landing branch has forced the altitude of
    the goal. *)
Definition landing_goal (c : Controller) : Controller :=
  set_goal c (set_position_z (goal c) 0.05).

(** The process after the read of the clock that opens an iteration. *)
Definition tock (w : World) : World :=
  mkWorld (self w) (thrust w) (S (reads w)) (pubNav w) (rosout w).

(** The process with the timestamp of its last pose sample replaced. *)
Definition restamp (t : Q) (w : World) : World :=
  set_self w
    (set_lastTf (self w)
       (match lastTf (self w) with
        | Some tf => Some (mkTransformStamped t (translation tf) (rotation tf))
        | None => None
        end)).

(** The output limits of the four loops of a controller. *)
Definition limits (c : Controller) : list (Q * Q) :=
  [ (minOutput (pidX c), maxOutput (pidX c));
    (minOutput (pidY c), maxOutput (pidY c));
    (minOutput (pidZ c), maxOutput (pidZ c));
    (minOutput (pidYaw c), maxOutput (pidYaw c)) ].

(** No entry of the list is an error. *)
Definition quiet (lg : list LogMsg) : Prop :=
  Forall (fun m => level m <> ERROR) lg.

(** The part of [ready] that holds before the first sample. *)
Definition sound (w : World) : Prop :=
  ~ ki (pidZ (self w)) == 0 /\ quiet (rosout w).

(** What [run] maintains once a sample has arrived. *)
Definition ready (w : World) : Prop :=
  lastTf (self w) <> None /\ ~ ki (pidZ (self w)) == 0 /\ quiet (rosout w).

(** The orientation has norm 1. *)
Definition unit_quaternion (q : Quaternion) : Prop :=
  qx q * qx q + qy q * qy q + qz q * qz q + qw q * qw q == 1.

(** ** Concrete data for evaluation *)

(** A rational implementation of the four library functions: the
    quaternion inverse (conjugate over squared norm), the homogeneous
    matrix of the rotation of a quaternion (the quadratic terms scaled
    by two over the squared norm) and the translation matrix.  Euler
    angles are arc tangents and have no rational counterpart: the
    implementation gives those of the identity rotation, and the
    examples use it at the identity rotation only. *)
Definition rational_quaternion_inverse (q : Vec4) : Vec4 :=
  let n := inner q q in
  mkVec4 (- v0 q / n) (- v1 q / n) (- v2 q / n) (v3 q / n).

Definition rational_quaternion_matrix (q : Vec4) : Mat4 :=
  let s := 2 / inner q q in
  let x := v0 q in let y := v1 q in let z := v2 q in let w := v3 q in
  mkMat4
    (mkVec4 (1 - s*y*y - s*z*z) (s*x*y - s*z*w) (s*x*z + s*y*w) 0)
    (mkVec4 (s*x*y + s*z*w) (1 - s*x*x - s*z*z) (s*y*z - s*x*w) 0)
    (mkVec4 (s*x*z - s*y*w) (s*y*z + s*x*w) (1 - s*x*x - s*y*y) 0)
    (mkVec4 0 0 0 1).

Definition rational_translation_matrix (d : Q * Q * Q) : Mat4 :=
  let '(a, b, c) := d in
  mkMat4 (mkVec4 1 0 0 a) (mkVec4 0 1 0 b) (mkVec4 0 0 1 c) (mkVec4 0 0 0 1).

Definition rational_tf : Transformations :=
  mkTransformations rational_quaternion_matrix rational_quaternion_inverse
                    rational_translation_matrix (fun _ => (0, 0, 0)).

(** A clock that advances by 10 ms at each read. *)
Definition clock_10ms (n : nat) : Q := inject_Z (Z.of_nat n) / 100.

(** Pose samples stamped at time 0, level, at the given height. *)
Definition sample_at (height : Q) : TransformStamped :=
  mkTransformStamped 0 (mkVector3 0 0 height) (mkQuaternion 0 0 0 1).

(** The process of a new controller put in state [st], with last sample
    [tf] and ramp [th]. *)
Definition world_in (st : State) (tf : TransformStamped) (th : Z) : World :=
  mkWorld (set_lastTf (set_state (Controller_init "cf") st) (Some tf))
          th 0 [] [].

(** A controller that has flown before: its Y loop holds an integral
    and a previous error; a takeoff was requested again. *)
Definition flown : Controller :=
  set_pidY (set_lastTf (set_state (Controller_init "cf") TakingOff)
                       (Some (sample_at 0.5)))
           (mkPID (-35) (-10) (-0.0) (-20) 20 "y" 3 (Some 1) (Some 0)).

(** ** The outcomes of one iteration *)

Section Outcomes.

Context {T : Transformations}.

Variable clock : nat -> Q.

(** The ways in which an iteration of the loop of [run] can end from
    the process [w], by state, availability of a sample and tests on the
    height and the ramp. *)
Inductive tick_outcome (w : World) : Res (unit * World) -> Prop :=
| outcome_Idle :
    state (self w) = Idle ->
    tick_outcome w
      (Ok (tt, mkWorld (self w) (thrust w) (S (reads w))
                       (pubNav w ++ [Twist_0]) (rosout w)))
| outcome_no_sample :
    lastTf (self w) = None -> state (self w) <> Idle ->
    tick_outcome w (Raise AttributeError)
| outcome_Automatic (tf : TransformStamped) :
    state (self w) = Automatic -> lastTf (self w) = Some tf ->
    tick_outcome w
      (Ok (tt, mkWorld (snd (pid_step clock (self w) tf (2 + reads w)))
                       (thrust w) (6 + reads w)
                       (pubNav w ++ [fst (pid_step clock (self w) tf
                                                   (2 + reads w))])
                       (rosout w ++ latency_log (clock (S (reads w))) tf)))
| outcome_ramp (tf : TransformStamped) :
    state (self w) = TakingOff -> lastTf (self w) = Some tf ->
    vz (translation tf) <= 0.05 -> (thrust w <= 50000)%Z ->
    tick_outcome w
      (Ok (tt, mkWorld (self w) (thrust w + 100) (2 + reads w)
                       (pubNav w ++ [set_linear_z Twist_0
                                       (inject_Z (thrust w + 100))])
                       (rosout w ++ latency_log (clock (S (reads w))) tf)))
| outcome_transition (tf : TransformStamped) :
    state (self w) = TakingOff -> lastTf (self w) = Some tf ->
    0.05 < vz (translation tf) \/ (50000 < thrust w)%Z ->
    ~ ki (pidZ (self w)) == 0 ->
    tick_outcome w
      (Ok (tt, mkWorld
                 (snd (pid_step clock (takeoff_done (self w) (thrust w)) tf
                                (3 + reads w)))
                 0 (7 + reads w)
                 (pubNav w ++
                  [fst (pid_step clock (takeoff_done (self w) (thrust w)) tf
                                 (3 + reads w))])
                 ((rosout w ++ latency_log (clock (S (reads w))) tf)
                  ++ latency_log (clock (2 + reads w)) tf)))
| outcome_zero_ki (tf : TransformStamped) :
    state (self w) = TakingOff -> lastTf (self w) = Some tf ->
    0.05 < vz (translation tf) \/ (50000 < thrust w)%Z ->
    ki (pidZ (self w)) == 0 ->
    tick_outcome w (Raise ZeroDivisionError)
| outcome_touchdown (tf : TransformStamped) :
    state (self w) = Landing -> lastTf (self w) = Some tf ->
    vz (translation tf) <= 0.1 ->
    tick_outcome w
      (Ok (tt, mkWorld (set_state (landing_goal (self w)) Idle) (thrust w)
                       (2 + reads w) ((pubNav w ++ [Twist_0]) ++ [Twist_0])
                       (rosout w ++ latency_log (clock (S (reads w))) tf)))
| outcome_descend (tf : TransformStamped) :
    state (self w) = Landing -> lastTf (self w) = Some tf ->
    0.1 < vz (translation tf) ->
    tick_outcome w
      (Ok (tt, mkWorld (snd (pid_step clock (landing_goal (self w)) tf
                                      (3 + reads w)))
                       (thrust w) (7 + reads w)
                       (pubNav w ++ [fst (pid_step clock (landing_goal (self w))
                                                   tf (3 + reads w))])
                       ((rosout w ++ latency_log (clock (S (reads w))) tf)
                        ++ latency_log (clock (2 + reads w)) tf))).

End Outcomes.

(** ** More auxiliary definitions *)

(** The process with the attribute [targetZ] replaced. *)
Definition retarget (a : option Q) (w : World) : World :=
  set_self w (set_targetZ (self w) a).

(** The commands of [n] steps of the takeoff ramp that starts above
    [th]: linear z is [th + 100], ..., [th + 100 * n]. *)
Definition ramp_commands (th : Z) (n : nat) : list Twist :=
  map (fun k => set_linear_z Twist_0 (inject_Z (th + 100 * Z.of_nat k)))
      (seq 1 n).

Definition is_tf_msg (cb : Callback) : bool :=
  match cb with tf_msg _ => true | _ => false end.

Definition is_goal_msg (cb : Callback) : bool :=
  match cb with goal_msg _ => true | _ => false end.

Definition is_service (cb : Callback) : bool :=
  match cb with takeoff_srv | land_srv => true | _ => false end.

(** The number of warnings in a log. *)
Definition count_warn (lg : list LogMsg) : nat :=
  List.length
    (filter (fun m => match level m with WARN => true | _ => false end) lg).

(** * The joystick node (crazyflie_demo/scripts/controller.py)

    The class [Controller] of the demo maps joystick buttons to service
    calls and to the headlight parameter.  Its effects on the outside
    are recorded in order.  Service calls are taken to succeed and the
    value of the parameter to be an integer or a boolean. *)

Module Demo.

Inductive ServiceProxy := proxy (name : string).

Inductive ParamValue := PInt (z : Z) | PBool (b : bool).

(** [int(v)] and [bool(z)] *)
Definition int (v : ParamValue) : Z :=
  match v with PInt z => z | PBool b => if b then 1%Z else 0%Z end.

Definition bool (z : Z) : Datatypes.bool := negb (z =? 0)%Z.

Inductive Effect :=
| wait_for_service (name : string)
| loginfo (text : string)
| call (p : ServiceProxy) (args : list string)
| print (b : Datatypes.bool)
| set_param (name : string) (v : ParamValue).

Record Controller := mkController
  { _buttons : option (list Z);
    _update_params : ServiceProxy;
    _emergency : ServiceProxy;
    _land : option ServiceProxy;
    _takeoff : option ServiceProxy }.

Definition set_buttons (c : Controller) (b : option (list Z)) : Controller :=
  mkController b (_update_params c) (_emergency c) (_land c) (_takeoff c).

(** The node: the controller object, the parameter
    [ring/headlightEnable] of the parameter server (if set) and the
    effects so far, oldest first. *)
Record World := mkWorld
  { self : Controller;
    headlightEnable : option ParamValue;
    effects : list Effect }.

Inductive exn := IndexError | KeyError.

Definition M (A : Type) : Type := World -> (A + exn) * World.

Definition ret {A} (a : A) : M A := fun w => (inl a, w).

Definition raise {A} (e : exn) : M A := fun w => (inr e, w).

Definition bind {A B} (m : M A) (k : A -> M B) : M B :=
  fun w => match m w with
           | (inl a, w') => k a w'
           | (inr e, w') => (inr e, w')
           end.

Declare Scope joy_scope.
Notation "x <- m ;; k" := (bind m (fun x => k))
  (at level 61, m at next level, right associativity) : joy_scope.
Notation "m ;; k" := (bind m (fun _ => k))
  (at level 61, right associativity) : joy_scope.
Local Open Scope joy_scope.

Definition get_self : M Controller := fun w => (inl (self w), w).

Definition put_self (c : Controller) : M unit :=
  fun w => (inl tt, mkWorld c (headlightEnable w) (effects w)).

Definition emit (e : Effect) : M unit :=
  fun w => (inl tt, mkWorld (self w) (headlightEnable w) (effects w ++ [e])).

(** [rospy.get_param("ring/headlightEnable")] *)
Definition get_param : M ParamValue :=
  fun w => match headlightEnable w with
           | Some v => (inl v, w)
           | None => (inr KeyError, w)
           end.

(** [rospy.set_param("ring/headlightEnable", v)] *)
Definition rospy_set_param (v : ParamValue) : M unit :=
  fun w => (inl tt, mkWorld (self w) (Some v)
                            (effects w ++ [set_param "ring/headlightEnable" v])).

(** [l[i]] for [i >= 0] *)
Definition index (l : list Z) (i : nat) : M Z :=
  match nth_error l i with
  | Some a => ret a
  | None => raise IndexError
  end.

(** [Controller.__init__], with the parameter server holding [param]
    for [ring/headlightEnable]. *)
Definition Controller_init (use_controller : Datatypes.bool)
    (param : option ParamValue) : World :=
  let found :=
    [ wait_for_service "update_params";
      loginfo "found update_params service";
      wait_for_service "emergency";
      loginfo "found emergency service" ] in
  if use_controller then
    mkWorld (mkController None (proxy "update_params") (proxy "emergency")
                          (Some (proxy "land")) (Some (proxy "takeoff")))
            param
            (found ++ [ wait_for_service "land"; loginfo "found land service";
                        wait_for_service "takeoff";
                        loginfo "found takeoff service" ])
  else
    mkWorld (mkController None (proxy "update_params") (proxy "emergency")
                          None None)
            param found.

(** The body of the loop of [_joyChanged] at index [i]. *)
Definition button (data : list Z) (i : nat) : M unit :=
  c <- get_self ;;
  d <- index data i ;;
  changed <- match _buttons c with
             | None => ret true
             | Some buttons =>
                 b <- index buttons i ;; ret (negb (d =? b)%Z)
             end ;;
  if changed : Datatypes.bool then
    (match _land c with
     | Some land =>
         if (i =? 0)%nat && (d =? 1)%Z then emit (call land []) else ret tt
     | None => ret tt
     end) ;;
    (if (i =? 1)%nat && (d =? 1)%Z
     then emit (call (_emergency c) []) else ret tt) ;;
    (match _takeoff c with
     | Some takeoff =>
         if (i =? 2)%nat && (d =? 1)%Z then emit (call takeoff []) else ret tt
     | None => ret tt
     end) ;;
    (if (i =? 4)%nat && (d =? 1)%Z then
       v <- get_param ;;
       let value := bool (int v) in
       emit (print value) ;;
       rospy_set_param (PBool (negb value)) ;;
       emit (call (_update_params c) ["ring/headlightEnable"%string]) ;;
       emit (print (negb value))
     else ret tt)
  else ret tt.

Fixpoint for_each (l : list nat) (body : nat -> M unit) : M unit :=
  match l with
  | [] => ret tt
  | i :: l => body i ;; for_each l body
  end.

(** [Controller._joyChanged], on the buttons of the message. *)
Definition _joyChanged (data : list Z) : M unit :=
  for_each (seq 0 (List.length data)) (button data) ;;
  c <- get_self ;;
  put_self (set_buttons c (Some data)).

(** Button [i] of [data] is 1 and differs from the previous message, or
    there is no previous message. *)
Definition pressed (prev : option (list Z)) (data : list Z) (i : nat)
  : Datatypes.bool :=
  match nth_error data i with
  | Some d =>
      (d =? 1)%Z &&
      match prev with
      | None => true
      | Some buttons =>
          match nth_error buttons i with
          | Some b => negb (d =? b)%Z
          | None => false
          end
      end
  | None => false
  end.

(** The effects of a message in terms of [pressed]. *)
Definition joy_effects (c : Controller) (param : option ParamValue)
    (data : list Z) : list Effect :=
  (match _land c with
   | Some land => if pressed (_buttons c) data 0 then [call land []] else []
   | None => []
   end) ++
  (if pressed (_buttons c) data 1 then [call (_emergency c) []] else []) ++
  (match _takeoff c with
   | Some takeoff =>
       if pressed (_buttons c) data 2 then [call takeoff []] else []
   | None => []
   end) ++
  (match param with
   | Some v =>
       if pressed (_buttons c) data 4 then
         [ print (bool (int v));
           set_param "ring/headlightEnable" (PBool (negb (bool (int v))));
           call (_update_params c) ["ring/headlightEnable"%string];
           print (negb (bool (int v))) ]
       else []
   | None => []
   end).

(** The effects of the body of the loop at index [i], and the
    parameter it leaves. *)
Definition at_index (c : Controller) (param : option ParamValue)
    (data : list Z) (i : nat) : list Effect :=
  match i with
  | 0%nat =>
      match _land c with
      | Some land => if pressed (_buttons c) data 0 then [call land []] else []
      | None => []
      end
  | 1%nat => if pressed (_buttons c) data 1 then [call (_emergency c) []] else []
  | 2%nat =>
      match _takeoff c with
      | Some takeoff =>
          if pressed (_buttons c) data 2 then [call takeoff []] else []
      | None => []
      end
  | 4%nat =>
      match param with
      | Some v =>
          if pressed (_buttons c) data 4 then
            [ print (bool (int v));
              set_param "ring/headlightEnable" (PBool (negb (bool (int v))));
              call (_update_params c) ["ring/headlightEnable"%string];
              print (negb (bool (int v))) ]
          else []
      | None => []
      end
  | _ => []
  end.

(** The parameter after a message: toggled when button 4 is pressed. *)
Definition toggled (c : Controller) (param : option ParamValue)
    (data : list Z) : option ParamValue :=
  if pressed (_buttons c) data 4
  then option_map (fun v => PBool (negb (bool (int v)))) param
  else param.

(** The previous message, if any, has a button at every index below
    [n]. *)
Definition covers (prev : option (list Z)) (n : nat) : Prop :=
  match prev with
  | None => True
  | Some buttons => (n <= List.length buttons)%nat
  end.

(** The effect is not a service call, or is a call through one of the
    proxies [ps]. *)
Definition calls_only (ps : list ServiceProxy) (e : Effect) : Prop :=
  match e with
  | call p _ => In p ps
  | _ => True
  end.

End Demo.

(** ** The joystick node in front of the flight controller *)



(** * Properties *)

(** ** Comparisons *)

Lemma Qgtb_true (a b : Q) : Qgtb a b = true <-> b < a.
Proof.
  unfold Qgtb. rewrite negb_true_iff.
  destruct (Qle_bool a b) eqn:E.
  - apply Qle_bool_iff in E. split; [discriminate | intro; lra].
  - split; [intros _ | reflexivity].
    apply Qnot_le_lt. intro H. apply Qle_bool_iff in H. congruence.
Qed.

Lemma Qgtb_false (a b : Q) : Qgtb a b = false <-> a <= b.
Proof.
  unfold Qgtb. rewrite negb_false_iff. apply Qle_bool_iff.
Qed.

(** ** Evaluation of the monadic code *)

Lemma bind_Ok {A B} (m : M A) (k : A -> M B) (w w' : World) (a : A) :
  m w = Ok (a, w') -> bind m k w = k a w'.
Proof. intros H. unfold bind. rewrite H. reflexivity. Qed.

Lemma bind_Raise {A B} (m : M A) (k : A -> M B) (w : World) (e : exn) :
  m w = Raise e -> bind m k w = Raise e.
Proof. intros H. unfold bind. rewrite H. reflexivity. Qed.

Lemma truediv_Ok (a b : Q) (w : World) :
  ~ b == 0 -> truediv a b w = Ok (a / b, w).
Proof.
  intros H. unfold truediv.
  destruct (Qeq_bool b 0) eqn:E; [| reflexivity].
  apply Qeq_bool_eq in E. contradiction.
Qed.

Lemma takeoff_condition (a : Q) (th : Z) :
  Qgtb a 0.05 || (50000 <? th)%Z = true <-> 0.05 < a \/ (50000 < th)%Z.
Proof.
  rewrite orb_true_iff, Qgtb_true, Z.ltb_lt. reflexivity.
Qed.

Lemma takeoff_condition_false (a : Q) (th : Z) :
  Qgtb a 0.05 || (50000 <? th)%Z = false <-> a <= 0.05 /\ (th <= 50000)%Z.
Proof.
  rewrite orb_false_iff, Qgtb_false, Z.ltb_ge. reflexivity.
Qed.

(** Unfolding of the monad and of the records, up to the tests on numbers. *)
Ltac ros_eval :=
  cbv [bind ret raise get_self put_self get_thrust put_thrust publish
       log loginfo logwarn logerr could_not_transform get_time call_update
       set_self set_thrust self thrust reads pubNav rosout
       set_pidX set_pidY set_pidZ set_pidYaw set_state set_goal set_lastTf
       set_targetZ set_integral pidReset reset
       frame pidX pidY pidZ pidYaw state goal lastTf targetZ
       kp ki kd minOutput maxOutput name integral previousError previousTime
       State_eqb _poseChanged _tfChanged _takeoff _land];
  cbn [orb].

(** ** The PID loops *)

Lemma clamp_within (lo hi a : Q) :
  lo <= hi -> lo <= clamp lo hi a /\ clamp lo hi a <= hi.
Proof.
  intros H. unfold clamp.
  destruct (Qgtb lo a) eqn:E1.
  - split; [apply Qle_refl | exact H].
  - apply Qgtb_false in E1.
    destruct (Qgtb a hi) eqn:E2.
    + split; [exact H | apply Qle_refl].
    + apply Qgtb_false in E2. split; assumption.
Qed.

Lemma limits_Controller_init (fr : string) :
  limits (Controller_init fr) =
  [ (-20, 20); (-20, 20); (10000, 60000); (-200.0, 200.0) ].
Proof. reflexivity. Qed.

(** C1.  [pidReset] resets the X, Z and Yaw loops and leaves the Y loop
    as it is: the integral accumulator and the previous error of the Y
    loop survive the takeoff transition. *)
Theorem pidReset_skips_pidY (c : Controller) :
  pidX (pidReset c) = reset (pidX c) /\
  pidZ (pidReset c) = reset (pidZ c) /\
  pidYaw (pidReset c) = reset (pidYaw c) /\
  pidY (pidReset c) = pidY c.
Proof.
  destruct c as [fr pX pY pZ pW st g ltf tz].
  destruct pZ as [p i d lo hi nm acc pe pt].
  repeat split.
Qed.

(** C5.  Whatever the setpoint, the measurement, the clock and the state
    of the loop, the output of [update] lies between the limits of the
    loop when they are ordered; for a controller with the limits that
    [__init__] configures, the X and Y outputs lie in [-20, 20], the Z
    output in [10000, 60000] and the Yaw output in [-200, 200]. *)
Theorem update_within_limits (c : Controller) (fr : string)
    (now setpoint measurement : Q) :
  limits c = limits (Controller_init fr) ->
  (forall p : PID, minOutput p <= maxOutput p ->
     minOutput p <= fst (update p now setpoint measurement) /\
     fst (update p now setpoint measurement) <= maxOutput p) /\
  (-20 <= fst (update (pidX c) now setpoint measurement) /\
   fst (update (pidX c) now setpoint measurement) <= 20) /\
  (-20 <= fst (update (pidY c) now setpoint measurement) /\
   fst (update (pidY c) now setpoint measurement) <= 20) /\
  (10000 <= fst (update (pidZ c) now setpoint measurement) /\
   fst (update (pidZ c) now setpoint measurement) <= 60000) /\
  (-200 <= fst (update (pidYaw c) now setpoint measurement) /\
   fst (update (pidYaw c) now setpoint measurement) <= 200).
Proof.
  intros H. rewrite limits_Controller_init in H. unfold limits in H.
  injection H as HX1 HX2 HY1 HY2 HZ1 HZ2 HW1 HW2.
  assert (G : forall p : PID, minOutput p <= maxOutput p ->
     minOutput p <= fst (update p now setpoint measurement) /\
     fst (update p now setpoint measurement) <= maxOutput p).
  { intros p Hp. unfold update. cbn [fst]. apply clamp_within. exact Hp. }
  split; [exact G |].
  assert (GX := G (pidX c)). assert (GY := G (pidY c)).
  assert (GZ := G (pidZ c)). assert (GW := G (pidYaw c)).
  rewrite HX1, HX2 in GX. rewrite HY1, HY2 in GY.
  rewrite HZ1, HZ2 in GZ. rewrite HW1, HW2 in GW.
  assert (GX' := GX ltac:(lra)). assert (GY' := GY ltac:(lra)).
  assert (GZ' := GZ ltac:(lra)). assert (GW' := GW ltac:(lra)).
  repeat split; lra.
Qed.

Section Props.

Context {T : Transformations}.

Variable clock : nat -> Q.

Lemma getTransform_eq (source_frame target_frame : string) (w : World)
    (tf : TransformStamped) :
  lastTf (self w) = Some tf ->
  getTransform clock source_frame target_frame w =
  Ok (Some (translation tf, rotation tf, stamp tf),
      mkWorld (self w) (thrust w) (S (reads w)) (pubNav w)
              (rosout w ++ latency_log (clock (reads w)) tf)).
Proof.
  intros H. unfold getTransform, bind, get_time, get_self.
  cbn [self thrust reads pubNav rosout].
  rewrite H. unfold latency_log, latency_ms.
  destruct (Qgtb _ 25); cbn.
  - reflexivity.
  - rewrite app_nil_r. reflexivity.
Qed.

Lemma getTransform_None (source_frame target_frame : string) (w : World) :
  lastTf (self w) = None ->
  getTransform clock source_frame target_frame w = Raise AttributeError.
Proof.
  intros H. unfold getTransform, bind, get_time, get_self.
  cbn [self thrust reads pubNav rosout]. rewrite H. reflexivity.
Qed.

Lemma run_TakingOff_skip (w : World) :
  state (self w) <> TakingOff -> run_TakingOff clock w = Ok (tt, w).
Proof.
  intros H. destruct w as [c th n pub lg]. cbn [self] in H.
  unfold run_TakingOff. ros_eval.
  destruct c as [fr pX pY pZ pW st g ltf tz]. cbn [state] in *.
  destruct st; try reflexivity. contradiction.
Qed.

Lemma run_TakingOff_transition (w : World) (tf : TransformStamped) :
  state (self w) = TakingOff ->
  lastTf (self w) = Some tf ->
  ~ ki (pidZ (self w)) == 0 ->
  0.05 < vz (translation tf) \/ (50000 < thrust w)%Z ->
  run_TakingOff clock w =
  Ok (tt, mkWorld (takeoff_done (self w) (thrust w)) 0 (S (reads w)) (pubNav w)
                  (rosout w ++ latency_log (clock (reads w)) tf)).
Proof.
  intros Hs Htf Hki Hc. apply takeoff_condition in Hc.
  unfold run_TakingOff.
  rewrite (bind_Ok get_self _ _ _ _ eq_refl). rewrite Hs. cbn [State_eqb].
  rewrite (bind_Ok _ _ _ _ _ (getTransform_eq _ _ w tf Htf)).
  destruct w as [c th n pub lg]. cbn [self thrust reads pubNav rosout] in *.
  rewrite (bind_Ok get_thrust _ _ _ _ eq_refl).
  cbn [thrust]. rewrite Hc.
  destruct c as [fr pX pY pZ pW st g ltf tz]. cbn [pidZ ki] in Hki.
  unfold takeoff_done. ros_eval.
  rewrite truediv_Ok by exact Hki. reflexivity.
Qed.

Lemma run_TakingOff_ramp (w : World) (tf : TransformStamped) :
  state (self w) = TakingOff ->
  lastTf (self w) = Some tf ->
  vz (translation tf) <= 0.05 -> (thrust w <= 50000)%Z ->
  run_TakingOff clock w =
  Ok (tt, mkWorld (self w) (thrust w + 100) (S (reads w))
                  (pubNav w ++ [set_linear_z Twist_0 (inject_Z (thrust w + 100))])
                  (rosout w ++ latency_log (clock (reads w)) tf)).
Proof.
  intros Hs Htf Hz Ht.
  assert (Hc := proj2 (takeoff_condition_false _ _) (conj Hz Ht)).
  unfold run_TakingOff.
  rewrite (bind_Ok get_self _ _ _ _ eq_refl). rewrite Hs. cbn [State_eqb].
  rewrite (bind_Ok _ _ _ _ _ (getTransform_eq _ _ w tf Htf)).
  destruct w as [c th n pub lg]. cbn [self thrust reads pubNav rosout] in *.
  rewrite (bind_Ok get_thrust _ _ _ _ eq_refl).
  cbn [thrust]. rewrite Hc. reflexivity.
Qed.

Lemma run_Landing_skip (w : World) :
  state (self w) <> Landing -> run_Landing clock w = Ok (tt, w).
Proof.
  intros H. destruct w as [c th n pub lg]. cbn [self] in H.
  unfold run_Landing. ros_eval.
  destruct c as [fr pX pY pZ pW st g ltf tz]. cbn [state] in *.
  destruct st; try reflexivity. contradiction.
Qed.

Lemma run_Landing_touchdown (w : World) (tf : TransformStamped) :
  state (self w) = Landing ->
  lastTf (self w) = Some tf ->
  vz (translation tf) <= 0.1 ->
  run_Landing clock w =
  Ok (tt, mkWorld (set_state (landing_goal (self w)) Idle) (thrust w)
                  (S (reads w)) (pubNav w ++ [Twist_0])
                  (rosout w ++ latency_log (clock (reads w)) tf)).
Proof.
  intros Hs Htf Hz. apply Qle_bool_iff in Hz.
  unfold run_Landing.
  rewrite (bind_Ok get_self _ _ _ _ eq_refl). rewrite Hs. cbn [State_eqb].
  rewrite (bind_Ok (put_self _) _ _ _ _ eq_refl).
  erewrite (bind_Ok (getTransform _ _ _)); cycle 1.
  { apply getTransform_eq. destruct w; exact Htf. }
  cbv beta iota. rewrite Hz. destruct w as [c th n pub lg]. reflexivity.
Qed.

Lemma run_Landing_descend (w : World) (tf : TransformStamped) :
  state (self w) = Landing ->
  lastTf (self w) = Some tf ->
  0.1 < vz (translation tf) ->
  run_Landing clock w =
  Ok (tt, mkWorld (landing_goal (self w)) (thrust w)
                  (S (reads w)) (pubNav w)
                  (rosout w ++ latency_log (clock (reads w)) tf)).
Proof.
  intros Hs Htf Hz.
  assert (Hb : Qle_bool (vz (translation tf)) 0.1 = false).
  { destruct (Qle_bool _ _) eqn:E; [| reflexivity].
    apply Qle_bool_iff in E. lra. }
  unfold run_Landing.
  rewrite (bind_Ok get_self _ _ _ _ eq_refl). rewrite Hs. cbn [State_eqb].
  rewrite (bind_Ok (put_self _) _ _ _ _ eq_refl).
  erewrite (bind_Ok (getTransform _ _ _)); cycle 1.
  { apply getTransform_eq. destruct w; exact Htf. }
  cbv beta iota. rewrite Hb. destruct w as [c th n pub lg]. reflexivity.
Qed.

Lemma run_Automatic_skip (w : World) :
  state (self w) <> Automatic -> state (self w) <> Landing ->
  run_Automatic clock w = Ok (tt, w).
Proof.
  intros H1 H2. destruct w as [c th n pub lg]. cbn [self] in H1, H2.
  unfold run_Automatic. ros_eval.
  destruct c as [fr pX pY pZ pW st g ltf tz]. cbn [state] in *.
  destruct st; try reflexivity; contradiction.
Qed.

Lemma run_Automatic_eq (w : World) (tf : TransformStamped) :
  state (self w) = Automatic \/ state (self w) = Landing ->
  lastTf (self w) = Some tf ->
  run_Automatic clock w =
  Ok (tt, mkWorld (snd (pid_step clock (self w) tf (S (reads w)))) (thrust w)
                  (5 + reads w)
                  (pubNav w ++ [fst (pid_step clock (self w) tf (S (reads w)))])
                  (rosout w ++ latency_log (clock (reads w)) tf)).
Proof.
  intros Hs Htf.
  assert (Hb : State_eqb (state (self w)) Automatic
               || State_eqb (state (self w)) Landing = true)
    by (destruct Hs as [-> | ->]; reflexivity).
  unfold run_Automatic.
  rewrite (bind_Ok get_self _ _ _ _ eq_refl). rewrite Hb.
  rewrite (bind_Ok _ _ _ _ _ (getTransform_eq _ _ w tf Htf)).
  destruct w as [c th n pub lg]. cbn [self thrust reads pubNav rosout] in *.
  destruct c as [fr pX pY pZ pW st g ltf tz].
  unfold pid_step. ros_eval. reflexivity.
Qed.

Lemma run_Idle_skip (w : World) :
  state (self w) <> Idle -> run_Idle w = Ok (tt, w).
Proof.
  intros H. destruct w as [c th n pub lg]. cbn [self] in H.
  unfold run_Idle. ros_eval.
  destruct c as [fr pX pY pZ pW st g ltf tz]. cbn [state] in *.
  destruct st; try reflexivity. contradiction.
Qed.

Lemma run_Idle_eq (w : World) :
  state (self w) = Idle ->
  run_Idle w =
  Ok (tt, mkWorld (self w) (thrust w) (reads w) (pubNav w ++ [Twist_0])
                  (rosout w)).
Proof.
  intros H. unfold run_Idle.
  rewrite (bind_Ok get_self _ _ _ _ eq_refl). rewrite H. reflexivity.
Qed.

(** ** One iteration of the loop, by phase *)

Lemma tick_eq (w : World) :
  tick clock w =
  (run_TakingOff clock ;; run_Landing clock ;; run_Automatic clock ;; run_Idle)
    (tock w).
Proof. reflexivity. Qed.

Ltac phase L :=
  erewrite bind_Ok
    by (eapply L;
        first [eassumption | reflexivity | discriminate | cbn; congruence]).

Lemma tick_Idle (w : World) :
  state (self w) = Idle ->
  tick clock w =
  Ok (tt, mkWorld (self w) (thrust w) (S (reads w)) (pubNav w ++ [Twist_0])
                  (rosout w)).
Proof.
  intros Hs. rewrite tick_eq.
  phase run_TakingOff_skip. phase run_Landing_skip. phase run_Automatic_skip.
  rewrite run_Idle_eq by exact Hs. reflexivity.
Qed.

Lemma tick_TakingOff_ramp (w : World) (tf : TransformStamped) :
  state (self w) = TakingOff ->
  lastTf (self w) = Some tf ->
  vz (translation tf) <= 0.05 -> (thrust w <= 50000)%Z ->
  tick clock w =
  Ok (tt, mkWorld (self w) (thrust w + 100) (2 + reads w)
                  (pubNav w ++ [set_linear_z Twist_0 (inject_Z (thrust w + 100))])
                  (rosout w ++ latency_log (clock (S (reads w))) tf)).
Proof.
  intros Hs Htf Hz Ht. rewrite tick_eq.
  phase run_TakingOff_ramp.
  cbn [tock self thrust reads pubNav rosout].
  phase run_Landing_skip.
  phase run_Automatic_skip.
  rewrite run_Idle_skip by (cbn; congruence). reflexivity.
Qed.

Lemma tick_TakingOff_transition (w : World) (tf : TransformStamped) :
  state (self w) = TakingOff ->
  lastTf (self w) = Some tf ->
  ~ ki (pidZ (self w)) == 0 ->
  0.05 < vz (translation tf) \/ (50000 < thrust w)%Z ->
  tick clock w =
  Ok (tt, mkWorld
            (snd (pid_step clock (takeoff_done (self w) (thrust w)) tf (3 + reads w)))
            0 (7 + reads w)
            (pubNav w ++
             [fst (pid_step clock (takeoff_done (self w) (thrust w)) tf (3 + reads w))])
            ((rosout w ++ latency_log (clock (S (reads w))) tf)
             ++ latency_log (clock (2 + reads w)) tf)).
Proof.
  intros Hs Htf Hki Hc. rewrite tick_eq.
  phase run_TakingOff_transition.
  cbn [tock self thrust reads pubNav rosout].
  phase run_Landing_skip.
  erewrite bind_Ok by (apply run_Automatic_eq with (tf := tf);
                       [left; reflexivity | exact Htf]).
  rewrite run_Idle_skip by discriminate. reflexivity.
Qed.

Lemma tick_Automatic (w : World) (tf : TransformStamped) :
  state (self w) = Automatic ->
  lastTf (self w) = Some tf ->
  tick clock w =
  Ok (tt, mkWorld (snd (pid_step clock (self w) tf (2 + reads w))) (thrust w)
                  (6 + reads w)
                  (pubNav w ++ [fst (pid_step clock (self w) tf (2 + reads w))])
                  (rosout w ++ latency_log (clock (S (reads w))) tf)).
Proof.
  intros Hs Htf. rewrite tick_eq.
  phase run_TakingOff_skip.
  phase run_Landing_skip.
  erewrite bind_Ok by (apply run_Automatic_eq with (tf := tf);
                       [left; exact Hs | exact Htf]).
  rewrite run_Idle_skip by (cbn; congruence). reflexivity.
Qed.

Lemma tick_Landing_touchdown (w : World) (tf : TransformStamped) :
  state (self w) = Landing ->
  lastTf (self w) = Some tf ->
  vz (translation tf) <= 0.1 ->
  tick clock w =
  Ok (tt, mkWorld (set_state (landing_goal (self w)) Idle) (thrust w)
                  (2 + reads w) ((pubNav w ++ [Twist_0]) ++ [Twist_0])
                  (rosout w ++ latency_log (clock (S (reads w))) tf)).
Proof.
  intros Hs Htf Hz. rewrite tick_eq.
  phase run_TakingOff_skip.
  phase run_Landing_touchdown.
  cbn [tock self thrust reads pubNav rosout].
  phase run_Automatic_skip.
  rewrite run_Idle_eq by reflexivity. reflexivity.
Qed.

Lemma tick_Landing_descend (w : World) (tf : TransformStamped) :
  state (self w) = Landing ->
  lastTf (self w) = Some tf ->
  0.1 < vz (translation tf) ->
  tick clock w =
  Ok (tt, mkWorld (snd (pid_step clock (landing_goal (self w)) tf (3 + reads w)))
                  (thrust w) (7 + reads w)
                  (pubNav w ++ [fst (pid_step clock (landing_goal (self w)) tf
                                              (3 + reads w))])
                  ((rosout w ++ latency_log (clock (S (reads w))) tf)
                   ++ latency_log (clock (2 + reads w)) tf)).
Proof.
  intros Hs Htf Hz. rewrite tick_eq.
  phase run_TakingOff_skip.
  phase run_Landing_descend.
  cbn [tock self thrust reads pubNav rosout].
  erewrite bind_Ok by (apply run_Automatic_eq with (tf := tf);
                       [right; exact Hs | exact Htf]).
  rewrite run_Idle_skip by (cbn; congruence). reflexivity.
Qed.

(** ** The flight state machine *)

(** C2.  In TakingOff the transition code runs to its end; the state it
    leaves is Automatic exactly when the measured height is above 0.05
    or the ramp is above 50000, and so is the state at the end of the
    iteration.  On the transition the integral of the Z loop is the ramp
    reached before the transition divided by [ki], [targetZ] is 0.5 and
    the ramp is 0. *)
Theorem takeoff_transition (w : World) (tf : TransformStamped) :
  state (self w) = TakingOff ->
  lastTf (self w) = Some tf ->
  ~ ki (pidZ (self w)) == 0 ->
  exists w1 w2,
    run_TakingOff clock w = Ok (tt, w1) /\
    tick clock w = Ok (tt, w2) /\
    (state (self w1) = Automatic <->
     0.05 < vz (translation tf) \/ (50000 < thrust w)%Z) /\
    (state (self w2) = Automatic <->
     0.05 < vz (translation tf) \/ (50000 < thrust w)%Z) /\
    (0.05 < vz (translation tf) \/ (50000 < thrust w)%Z ->
     integral (pidZ (self w1)) = inject_Z (thrust w) / ki (pidZ (self w)) /\
     targetZ (self w1) = Some 0.5 /\ thrust w1 = 0%Z /\
     targetZ (self w2) = Some 0.5 /\ thrust w2 = 0%Z).
Proof.
  intros Hs Htf Hki.
  destruct (Qlt_le_dec 0.05 (vz (translation tf))) as [Hz | Hz];
    [| destruct (Z_lt_le_dec 50000 (thrust w)) as [Ht | Ht]].
  1, 2: assert (Hc : 0.05 < vz (translation tf) \/ (50000 < thrust w)%Z)
          by (first [left; exact Hz | right; exact Ht]);
        rewrite (run_TakingOff_transition w tf Hs Htf Hki Hc);
        rewrite (tick_TakingOff_transition w tf Hs Htf Hki Hc);
        eexists; eexists; split; [reflexivity |]; split; [reflexivity |];
        cbn [self thrust];
        split; [split; [intros _; exact Hc | intros _; reflexivity] |];
        split; [split; [intros _; exact Hc | intros _; reflexivity] |];
        intros _; destruct (self w) as [fr pX pY pZ pW st g ltf tz];
        repeat split.
  rewrite (run_TakingOff_ramp w tf Hs Htf Hz Ht).
  rewrite (tick_TakingOff_ramp w tf Hs Htf Hz Ht).
  eexists; eexists; split; [reflexivity |]; split; [reflexivity |].
  cbn [self thrust]. rewrite Hs.
  assert (Hn : ~ (0.05 < vz (translation tf) \/ (50000 < thrust w)%Z)).
  { intros [H | H]; [lra | lia]. }
  split; [split; [discriminate | contradiction] |].
  split; [split; [discriminate | contradiction] |].
  contradiction.
Qed.

(** C7.  In TakingOff, while the height is at most 0.05 and the ramp at
    most 50000, an iteration adds 100 to the ramp and publishes one
    command, whose linear z is the new ramp and whose other five
    components are zero; the state stays TakingOff. *)
Theorem takeoff_ramp (w : World) (tf : TransformStamped) :
  state (self w) = TakingOff ->
  lastTf (self w) = Some tf ->
  vz (translation tf) <= 0.05 -> (thrust w <= 50000)%Z ->
  exists w',
    tick clock w = Ok (tt, w') /\
    thrust w' = (thrust w + 100)%Z /\
    pubNav w' =
      pubNav w ++ [mkTwist (mkVector3 0 0 (inject_Z (thrust w + 100)))
                           (mkVector3 0 0 0)] /\
    self w' = self w.
Proof.
  intros Hs Htf Hz Ht.
  rewrite (tick_TakingOff_ramp w tf Hs Htf Hz Ht).
  eexists. split; [reflexivity |]. repeat split.
Qed.

(** C8.  In Idle an iteration publishes one command, with all six
    components zero, and changes nothing else but the count of clock
    reads; it does so whatever the goal and the last pose sample are. *)
Theorem idle_publishes_zero (w : World) (g : Pose)
    (l : option TransformStamped) :
  state (self w) = Idle ->
  tick clock w =
    Ok (tt, mkWorld (self w) (thrust w) (S (reads w))
                    (pubNav w ++ [mkTwist (mkVector3 0 0 0) (mkVector3 0 0 0)])
                    (rosout w)) /\
  exists w',
    tick clock (set_self w (set_lastTf (set_goal (self w) g) l)) = Ok (tt, w') /\
    pubNav w' = pubNav w ++ [mkTwist (mkVector3 0 0 0) (mkVector3 0 0 0)].
Proof.
  intros Hs. split.
  - apply (tick_Idle w Hs).
  - rewrite tick_Idle by exact Hs. eexists. split; reflexivity.
Qed.

(** C3.  In Landing the branch sets the altitude of the goal to 0.05 and
    keeps its other components and the four loops; it leaves the state
    Idle exactly when the measured height is at most 0.1, and Landing
    otherwise, and that is the state at the end of the iteration.  On
    the transition the Landing branch publishes one all-zero command,
    the branch of the PID command does nothing and the iteration leaves
    the four loops untouched; otherwise the PID command is computed from
    the goal with altitude 0.05. *)
Theorem landing_phase (w : World) (tf : TransformStamped) :
  state (self w) = Landing ->
  lastTf (self w) = Some tf ->
  exists w1 w2 w3,
    run_Landing clock w = Ok (tt, w1) /\
    run_Automatic clock w1 = Ok (tt, w2) /\
    tick clock w = Ok (tt, w3) /\
    goal (self w1) =
      mkPose (mkVector3 (vx (position (goal (self w))))
                        (vy (position (goal (self w)))) 0.05)
             (orientation (goal (self w))) /\
    goal (self w3) = goal (self w1) /\
    (pidX (self w1), pidY (self w1), pidZ (self w1), pidYaw (self w1)) =
      (pidX (self w), pidY (self w), pidZ (self w), pidYaw (self w)) /\
    (state (self w1) = Idle <-> vz (translation tf) <= 0.1) /\
    (state (self w1) = Landing <-> 0.1 < vz (translation tf)) /\
    state (self w3) = state (self w1) /\
    (vz (translation tf) <= 0.1 ->
     pubNav w1 = pubNav w ++ [mkTwist (mkVector3 0 0 0) (mkVector3 0 0 0)] /\
     w2 = w1 /\
     (pidX (self w3), pidY (self w3), pidZ (self w3), pidYaw (self w3)) =
       (pidX (self w), pidY (self w), pidZ (self w), pidYaw (self w))) /\
    (0.1 < vz (translation tf) ->
     pubNav w1 = pubNav w /\
     pubNav w2 =
       pubNav w ++ [fst (pid_step clock (self w1) tf (S (reads w1)))]).
Proof.
  intros Hs Htf.
  destruct (Qlt_le_dec 0.1 (vz (translation tf))) as [Hz | Hz].
  - rewrite (run_Landing_descend w tf Hs Htf Hz).
    rewrite (tick_Landing_descend w tf Hs Htf Hz).
    eexists; eexists; eexists; split; [reflexivity |].
    split; [apply run_Automatic_eq with (tf := tf);
            [right; exact Hs | exact Htf] |].
    split; [reflexivity |].
    cbn [self thrust reads pubNav rosout].
    split; [reflexivity |]. split; [reflexivity |]. split; [reflexivity |].
    change (state (landing_goal (self w))) with (state (self w)). rewrite Hs.
    split; [split; [discriminate | intros H; lra] |].
    split; [split; [intros _; exact Hz | reflexivity] |].
    split; [exact Hs |].
    split; [intros H; lra |].
    intros _. split; reflexivity.
  - rewrite (run_Landing_touchdown w tf Hs Htf Hz).
    rewrite (tick_Landing_touchdown w tf Hs Htf Hz).
    eexists; eexists; eexists; split; [reflexivity |].
    split; [apply run_Automatic_skip; discriminate |].
    split; [reflexivity |].
    cbn [self thrust reads pubNav rosout].
    split; [reflexivity |]. split; [reflexivity |]. split; [reflexivity |].
    change (state (set_state (landing_goal (self w)) Idle)) with Idle.
    split; [split; [intros _; exact Hz | reflexivity] |].
    split; [split; [discriminate | intros H; lra] |].
    split; [reflexivity |].
    split; [intros _; repeat split |].
    intros H; lra.
Qed.

(** C10.  The four tests of the iteration run one after the other on the
    state as the earlier branches left it.  An iteration that starts in
    Landing with a height of at most 0.1 publishes two all-zero commands,
    one from the Landing branch and one from the Idle branch, and ends
    in Idle.  An iteration that starts in TakingOff and takes the
    transition ends in Automatic and publishes the PID command that the
    Automatic branch computes on the controller the transition left. *)
Theorem same_tick_fallthrough (w : World) (tf : TransformStamped) :
  lastTf (self w) = Some tf ->
  (state (self w) = Landing -> vz (translation tf) <= 0.1 ->
   exists w',
     tick clock w = Ok (tt, w') /\
     state (self w') = Idle /\
     pubNav w' = pubNav w ++ [Twist_0; Twist_0]) /\
  (state (self w) = TakingOff -> ~ ki (pidZ (self w)) == 0 ->
   0.05 < vz (translation tf) \/ (50000 < thrust w)%Z ->
   exists w1 w',
     run_TakingOff clock (tock w) = Ok (tt, w1) /\
     state (self w1) = Automatic /\
     pubNav w1 = pubNav w /\
     tick clock w = Ok (tt, w') /\
     state (self w') = Automatic /\
     pubNav w' = pubNav w ++ [fst (pid_step clock (self w1) tf (S (reads w1)))] /\
     self w' = snd (pid_step clock (self w1) tf (S (reads w1)))).
Proof.
  intros Htf. split.
  - intros Hs Hz. rewrite (tick_Landing_touchdown w tf Hs Htf Hz).
    eexists. split; [reflexivity |]. cbn [self pubNav].
    split; [reflexivity |]. rewrite <- app_assoc. reflexivity.
  - intros Hs Hki Hc.
    rewrite (tick_TakingOff_transition w tf Hs Htf Hki Hc).
    rewrite (run_TakingOff_transition (tock w) tf Hs Htf Hki Hc).
    eexists; eexists. split; [reflexivity |].
    cbn [tock self thrust reads pubNav rosout].
    repeat split.
Qed.

(** ** The staleness check *)

Lemma latency_log_level (now : Q) (tf : TransformStamped) :
  Forall (fun m => level m = WARN) (latency_log now tf).
Proof.
  unfold latency_log. destruct (Qgtb _ _); repeat constructor.
Qed.

(** C6.  [getTransform] returns the translation, the rotation and the
    timestamp of the last sample whatever its age; it changes neither
    the controller nor the ramp nor what was published; it logs one
    warning carrying the latency when the latency is above 25 ms and
    nothing otherwise.  The iteration does not depend on the age of the
    sample: with any other timestamp on the sample it publishes the same
    commands and leaves the same controller, ramp and clock. *)
Theorem staleness_is_advisory (w : World) (tf : TransformStamped)
    (source_frame target_frame : string) (t : Q) :
  lastTf (self w) = Some tf ->
  ~ ki (pidZ (self w)) == 0 ->
  (exists w',
     getTransform clock source_frame target_frame w =
       Ok (Some (translation tf, rotation tf, stamp tf), w') /\
     self w' = self w /\ thrust w' = thrust w /\ pubNav w' = pubNav w /\
     (25 < latency_ms (clock (reads w)) tf ->
      rosout w' =
        rosout w ++ [mkLogMsg WARN "High TF Latency: %f ms."
                              (FloatArg (latency_ms (clock (reads w)) tf))]) /\
     (latency_ms (clock (reads w)) tf <= 25 -> rosout w' = rosout w)) /\
  (exists w1 w2,
     tick clock w = Ok (tt, w1) /\
     tick clock (restamp t w) = Ok (tt, w2) /\
     pubNav w2 = pubNav w1 /\ thrust w2 = thrust w1 /\ reads w2 = reads w1 /\
     self w2 = self (restamp t w1)).
Proof.
  intros Htf Hki. split.
  - rewrite (getTransform_eq _ _ w tf Htf). eexists. split; [reflexivity |].
    cbn [self thrust reads pubNav rosout]. repeat split.
    + intros H. apply Qgtb_true in H. unfold latency_log. rewrite H. reflexivity.
    + intros H. apply Qgtb_false in H. unfold latency_log. rewrite H.
      apply app_nil_r.
  - destruct w as [c th n pub lg].
    destruct c as [fr pX pY pZ pW st g ltf tz].
    cbn [self lastTf pidZ] in Htf, Hki. subst ltf.
    set (tf' := mkTransformStamped t (translation tf) (rotation tf)).
    destruct st.
    + rewrite !tick_Idle by reflexivity.
      eexists; eexists; repeat split.
    + erewrite (tick_Automatic _ tf) by reflexivity.
      erewrite (tick_Automatic _ tf') by reflexivity.
      eexists; eexists; repeat split.
    + destruct (Qlt_le_dec 0.05 (vz (translation tf))) as [Hz | Hz];
        [| destruct (Z_lt_le_dec 50000 th) as [Ht | Ht]].
      * erewrite (tick_TakingOff_transition _ tf)
          by first [reflexivity | exact Hki | left; exact Hz].
        erewrite (tick_TakingOff_transition _ tf')
          by first [reflexivity | exact Hki | left; exact Hz].
        eexists; eexists; repeat split.
      * erewrite (tick_TakingOff_transition _ tf)
          by first [reflexivity | exact Hki | right; exact Ht].
        erewrite (tick_TakingOff_transition _ tf')
          by first [reflexivity | exact Hki | right; exact Ht].
        eexists; eexists; repeat split.
      * erewrite (tick_TakingOff_ramp _ tf)
          by first [reflexivity | exact Hz | exact Ht].
        erewrite (tick_TakingOff_ramp _ tf')
          by first [reflexivity | exact Hz | exact Ht].
        eexists; eexists; repeat split.
    + destruct (Qlt_le_dec 0.1 (vz (translation tf))) as [Hz | Hz].
      * erewrite (tick_Landing_descend _ tf)
          by first [reflexivity | exact Hz].
        erewrite (tick_Landing_descend _ tf')
          by first [reflexivity | exact Hz].
        eexists; eexists; repeat split.
      * erewrite (tick_Landing_touchdown _ tf)
          by first [reflexivity | exact Hz].
        erewrite (tick_Landing_touchdown _ tf')
          by first [reflexivity | exact Hz].
        eexists; eexists; repeat split.
Qed.

(** ** Availability of the pose sample *)

Lemma quiet_app (a b : list LogMsg) : quiet a -> quiet b -> quiet (a ++ b).
Proof. intros Ha Hb. apply Forall_app. split; assumption. Qed.

Lemma quiet_latency_log (now : Q) (tf : TransformStamped) :
  quiet (latency_log now tf).
Proof.
  unfold quiet. eapply Forall_impl; [| apply latency_log_level].
  intros m H. rewrite H. discriminate.
Qed.

(** An iteration with a sample at hand ends without exception, logs no
    error, keeps the sample and publishes at least one command. *)
Lemma tick_available (w : World) :
  lastTf (self w) <> None -> ~ ki (pidZ (self w)) == 0 ->
  exists w',
    tick clock w = Ok (tt, w') /\
    lastTf (self w') <> None /\ ~ ki (pidZ (self w')) == 0 /\
    (exists lg, rosout w' = rosout w ++ lg /\ quiet lg) /\
    (exists msg msgs, pubNav w' = pubNav w ++ msg :: msgs) /\
    limits (self w') = limits (self w).
Proof.
  intros Htf Hki.
  destruct w as [c th n pub lg].
  destruct c as [fr pX pY pZ pW st g ltf tz].
  cbn [self lastTf pidZ rosout] in Htf, Hki.
  destruct ltf as [tf |]; [clear Htf | contradiction].
  pose proof (quiet_latency_log (clock (S n)) tf) as Q1.
  pose proof (quiet_latency_log (clock (2 + n)) tf) as Q2.
  destruct st.
  - rewrite tick_Idle by reflexivity.
    eexists; split; [reflexivity |].
    cbn [self thrust reads pubNav rosout].
    split; [discriminate |]. split; [exact Hki |].
    split; [exists []; split; [symmetry; apply app_nil_r | constructor] |].
    split; [eexists; exists []; reflexivity | reflexivity].
  - erewrite (tick_Automatic _ tf) by reflexivity.
    eexists; split; [reflexivity |].
    cbn [self thrust reads pubNav rosout].
    split; [discriminate |]. split; [exact Hki |].
    split; [eexists; split; [reflexivity | exact Q1] |].
    split; [eexists; exists []; reflexivity | reflexivity].
  - destruct (Qlt_le_dec 0.05 (vz (translation tf))) as [Hz | Hz];
      [| destruct (Z_lt_le_dec 50000 th) as [Ht | Ht]].
    1, 2: erewrite (tick_TakingOff_transition _ tf)
            by first [reflexivity | exact Hki
                     | left; exact Hz | right; exact Ht];
          eexists; (split; [reflexivity |]);
          cbn [self thrust reads pubNav rosout];
          (split; [discriminate |]); (split; [exact Hki |]);
          (split; [exists (latency_log (clock (S n)) tf
                           ++ latency_log (clock (2 + n)) tf);
                   split; [symmetry; apply app_assoc
                          | apply quiet_app; assumption] |]);
          split; [eexists; exists []; reflexivity | reflexivity].
    erewrite (tick_TakingOff_ramp _ tf)
      by first [reflexivity | exact Hz | exact Ht].
    eexists; split; [reflexivity |].
    cbn [self thrust reads pubNav rosout].
    split; [discriminate |]. split; [exact Hki |].
    split; [eexists; split; [reflexivity | exact Q1] |].
    split; [eexists; exists []; reflexivity | reflexivity].
  - destruct (Qlt_le_dec 0.1 (vz (translation tf))) as [Hz | Hz].
    + erewrite (tick_Landing_descend _ tf) by first [reflexivity | exact Hz].
      eexists; split; [reflexivity |].
      cbn [self thrust reads pubNav rosout].
      split; [discriminate |]. split; [exact Hki |].
      split; [exists (latency_log (clock (S n)) tf
                      ++ latency_log (clock (2 + n)) tf);
              split; [symmetry; apply app_assoc
                     | apply quiet_app; assumption] |].
      split; [eexists; exists []; reflexivity | reflexivity].
    + erewrite (tick_Landing_touchdown _ tf)
        by first [reflexivity | exact Hz].
      eexists; split; [reflexivity |].
      cbn [self thrust reads pubNav rosout].
      split; [discriminate |]. split; [exact Hki |].
      split; [eexists; split; [reflexivity | exact Q1] |].
      split; [| reflexivity].
      exists Twist_0, [Twist_0]. rewrite <- app_assoc. reflexivity.
Qed.

Lemma tick_ready (w : World) :
  ready w -> exists w', tick clock w = Ok (tt, w') /\ ready w'.
Proof.
  intros (Htf & Hki & Hq).
  destruct (tick_available w Htf Hki)
    as (w' & E & Htf' & Hki' & (lg & El & Hl) & _).
  exists w'. split; [exact E |].
  repeat split; [exact Htf' | exact Hki' |].
  rewrite El. apply quiet_app; assumption.
Qed.

(** Without a sample every phase but Idle ends the iteration with an
    exception: the wait at the start of [run] is what excludes it. *)
Lemma tick_without_sample (w : World) :
  lastTf (self w) = None -> state (self w) <> Idle ->
  tick clock w = Raise AttributeError.
Proof.
  intros Htf Hs. rewrite tick_eq.
  destruct w as [c th n pub lg].
  destruct c as [fr pX pY pZ pW st g ltf tz].
  cbn [self lastTf state] in Htf, Hs. subst ltf.
  destruct st; [contradiction | | |].
  - phase run_TakingOff_skip. phase run_Landing_skip.
    apply bind_Raise. unfold run_Automatic.
    rewrite (bind_Ok get_self _ _ _ _ eq_refl). cbn [tock self state State_eqb orb].
    apply bind_Raise. apply getTransform_None. reflexivity.
  - apply bind_Raise. unfold run_TakingOff.
    rewrite (bind_Ok get_self _ _ _ _ eq_refl).
    cbn [tock self state State_eqb].
    apply bind_Raise. apply getTransform_None. reflexivity.
  - phase run_TakingOff_skip.
    apply bind_Raise. unfold run_Landing.
    rewrite (bind_Ok get_self _ _ _ _ eq_refl).
    cbn [tock self state State_eqb].
    rewrite (bind_Ok (put_self _) _ _ _ _ eq_refl).
    apply bind_Raise. apply getTransform_None. reflexivity.
Qed.

Lemma deliver_limits (cb : Callback) (w w' : World) :
  deliver cb w = Ok (tt, w') -> limits (self w') = limits (self w).
Proof.
  destruct cb; intros H; injection H as <-; reflexivity.
Qed.

Lemma deliver_sound (cb : Callback) (w : World) :
  sound w ->
  exists w',
    deliver cb w = Ok (tt, w') /\ sound w' /\
    (lastTf (self w) <> None -> lastTf (self w') <> None).
Proof.
  intros (Hki & Hq).
  destruct w as [c th n pub lg].
  destruct c as [fr pX pY pZ pW st g ltf tz].
  cbn [self lastTf pidZ rosout] in Hki, Hq.
  destruct cb; (eexists; split; [reflexivity |]);
    cbn [self lastTf pidZ rosout set_self set_state set_goal set_lastTf
         _poseChanged _tfChanged frame pidX pidY pidYaw state goal targetZ
         thrust reads pubNav ki];
    (split; [split; [exact Hki |] | first [discriminate | exact (fun H => H)]]);
    try exact Hq;
    apply quiet_app; try exact Hq; repeat constructor; discriminate.
Qed.

Lemma deliver_all_sound (cbs : list Callback) (w : World) :
  sound w ->
  exists w',
    deliver_all cbs w = Ok (tt, w') /\ sound w' /\
    (lastTf (self w) <> None -> lastTf (self w') <> None).
Proof.
  revert w. induction cbs as [| cb cbs IH]; intros w Hw.
  - exists w. repeat split; try apply Hw. exact (fun H => H).
  - destruct (deliver_sound cb w Hw) as (w1 & E1 & Hw1 & K1).
    destruct (IH w1 Hw1) as (w2 & E2 & Hw2 & K2).
    exists w2. cbn [deliver_all]. rewrite (bind_Ok _ _ _ _ _ E1).
    repeat split; try apply Hw2; auto.
Qed.

Lemma control_loop_ready (sched : Schedule) (w : World) :
  ready w ->
  exists w', control_loop clock sched w = Ok (tt, w') /\ quiet (rosout w').
Proof.
  revert w. induction sched as [| cbs rest IH]; intros w Hw.
  - exists w. split; [reflexivity | apply Hw].
  - destruct (tick_ready w Hw) as (w1 & E1 & (Htf1 & Hs1)).
    destruct (deliver_all_sound cbs w1 Hs1) as (w2 & E2 & Hs2 & K2).
    destruct (IH w2 (conj (K2 Htf1) Hs2)) as (w3 & E3 & Hq3).
    exists w3. cbn [control_loop].
    rewrite (bind_Ok _ _ _ _ _ E1), (bind_Ok _ _ _ _ _ E2).
    split; assumption.
Qed.

Lemma wait_for_tf_sound (sched : Schedule) (w : World) :
  sound w ->
  exists rest w',
    wait_for_tf sched w = Ok (rest, w') /\ sound w' /\
    (rest = [] \/ lastTf (self w') <> None).
Proof.
  revert w. induction sched as [| cbs rest IH]; intros w Hw.
  - exists [], w. repeat split; try apply Hw. left; reflexivity.
  - cbn [wait_for_tf]. rewrite (bind_Ok get_self _ _ _ _ eq_refl).
    destruct (lastTf (self w)) as [tf |] eqn:Htf.
    + exists (cbs :: rest), w. repeat split; try apply Hw.
      right. rewrite Htf. discriminate.
    + rewrite (bind_Ok (logwarn _ _) _ _ _ _ eq_refl).
      match goal with
      | |- context [mkWorld ?a ?b ?c ?d ?e] => set (w1 := mkWorld a b c d e)
      end.
      assert (Hw1 : sound w1).
      { destruct Hw as (Hki & Hq). split; [exact Hki |].
        cbn. apply quiet_app; [exact Hq |]. repeat constructor. discriminate. }
      destruct (deliver_all_sound cbs w1 Hw1) as (w2 & E2 & Hw2 & _).
      rewrite (bind_Ok _ _ _ _ _ E2). apply IH. exact Hw2.
Qed.

Lemma run_quiet (sched : Schedule) (w : World) :
  sound w ->
  exists w', run clock sched w = Ok (tt, w') /\ quiet (rosout w').
Proof.
  intros Hw. unfold run.
  rewrite (bind_Ok (put_thrust 0) _ _ _ _ eq_refl).
  destruct (wait_for_tf_sound sched (set_thrust w 0) Hw)
    as (rest & w1 & E1 & Hw1 & [-> | Htf]).
  - rewrite (bind_Ok _ _ _ _ _ E1). exists w1. split; [reflexivity | apply Hw1].
  - rewrite (bind_Ok _ _ _ _ _ E1).
    apply control_loop_ready. split; [exact Htf | exact Hw1].
Qed.

(** C9.  Once a pose sample is stored, [getTransform] returns a triple
    whatever its frame arguments; an iteration then ends without
    exception, logs no error, publishes at least one command and keeps
    the sample; and [run], from a new controller and under any schedule
    of callbacks, ends without exception and without a single logged
    error. *)
Theorem transform_always_available :
  (forall (w : World) (source_frame target_frame : string),
     lastTf (self w) <> None ->
     exists r w',
       getTransform clock source_frame target_frame w = Ok (Some r, w')) /\
  (forall w : World,
     lastTf (self w) <> None -> ~ ki (pidZ (self w)) == 0 ->
     exists w',
       tick clock w = Ok (tt, w') /\
       lastTf (self w') <> None /\
       (exists lg, rosout w' = rosout w ++ lg /\
                   Forall (fun m => level m <> ERROR) lg) /\
       (exists msg msgs, pubNav w' = pubNav w ++ msg :: msgs)) /\
  (forall (fr : string) (sched : Schedule),
     exists w',
       run clock sched (World_init fr) = Ok (tt, w') /\
       Forall (fun m => level m <> ERROR) (rosout w')).
Proof.
  split; [| split].
  - intros w s t H. destruct (lastTf (self w)) as [tf |] eqn:Htf;
      [| contradiction].
    rewrite (getTransform_eq s t w tf Htf). eexists; eexists; reflexivity.
  - intros w Htf Hki.
    destruct (tick_available w Htf Hki)
      as (w' & E & Htf' & _ & Hl & Hp & _).
    exists w'. repeat split; assumption.
  - intros fr sched. apply run_quiet. split; [| constructor].
    cbn. intro H. discriminate H.
Qed.

(** ** Every outcome of an iteration *)

Lemma truediv_Raise (a b : Q) (w : World) :
  b == 0 -> truediv a b w = Raise ZeroDivisionError.
Proof.
  intros H. unfold truediv. apply Qeq_bool_iff in H. rewrite H. reflexivity.
Qed.

Lemma run_TakingOff_zero_ki (w : World) (tf : TransformStamped) :
  state (self w) = TakingOff ->
  lastTf (self w) = Some tf ->
  ki (pidZ (self w)) == 0 ->
  0.05 < vz (translation tf) \/ (50000 < thrust w)%Z ->
  run_TakingOff clock w = Raise ZeroDivisionError.
Proof.
  intros Hs Htf Hki Hc. apply takeoff_condition in Hc.
  unfold run_TakingOff.
  rewrite (bind_Ok get_self _ _ _ _ eq_refl). rewrite Hs. cbn [State_eqb].
  rewrite (bind_Ok _ _ _ _ _ (getTransform_eq _ _ w tf Htf)).
  destruct w as [c th n pub lg]. cbn [self thrust reads pubNav rosout] in *.
  rewrite (bind_Ok get_thrust _ _ _ _ eq_refl).
  cbn [thrust]. rewrite Hc.
  destruct c as [fr pX pY pZ pW st g ltf tz]. cbn [pidZ ki] in Hki.
  ros_eval. rewrite truediv_Raise by exact Hki. reflexivity.
Qed.

Lemma tick_spec (w : World) : tick_outcome clock w (tick clock w).
Proof.
  destruct (state (self w)) eqn:Hs.
  - rewrite (tick_Idle w Hs). constructor. exact Hs.
  - destruct (lastTf (self w)) as [tf |] eqn:Htf.
    + rewrite (tick_Automatic w tf Hs Htf). constructor; assumption.
    + rewrite tick_without_sample by (assumption || congruence).
      constructor; [assumption | congruence].
  - destruct (lastTf (self w)) as [tf |] eqn:Htf.
    + destruct (Qlt_le_dec 0.05 (vz (translation tf))) as [Hz | Hz];
        [| destruct (Z_lt_le_dec 50000 (thrust w)) as [Ht | Ht]].
      1, 2: assert (Hc : 0.05 < vz (translation tf) \/ (50000 < thrust w)%Z)
              by (first [left; exact Hz | right; exact Ht]);
            destruct (Qeq_dec (ki (pidZ (self w))) 0) as [Hki | Hki];
            [ rewrite tick_eq;
              erewrite bind_Raise
                by (apply run_TakingOff_zero_ki with (tf := tf); assumption);
              apply outcome_zero_ki with (tf := tf); assumption
            | rewrite (tick_TakingOff_transition w tf Hs Htf Hki Hc);
              apply outcome_transition; assumption ].
      rewrite (tick_TakingOff_ramp w tf Hs Htf Hz Ht).
      apply outcome_ramp; assumption.
    + rewrite tick_without_sample by (assumption || congruence).
      constructor; [assumption | congruence].
  - destruct (lastTf (self w)) as [tf |] eqn:Htf.
    + destruct (Qlt_le_dec 0.1 (vz (translation tf))) as [Hz | Hz].
      * rewrite (tick_Landing_descend w tf Hs Htf Hz).
        apply outcome_descend; assumption.
      * rewrite (tick_Landing_touchdown w tf Hs Htf Hz).
        apply outcome_touchdown; assumption.
    + rewrite tick_without_sample by (assumption || congruence).
      constructor; [assumption | congruence].
Qed.

Ltac outcomes H :=
  match type of H with
  | tick clock ?w = _ =>
      let O := fresh "O" in
      pose proof (tick_spec w) as O; rewrite H in O; inversion O; subst;
      clear O
  end.

(** X1.  An iteration never enters TakingOff or Landing and never leaves Idle
    or Automatic: from Idle it ends in Idle, from Automatic in
    Automatic, from TakingOff in TakingOff or Automatic, from Landing in
    Landing or Idle. *)
Theorem tick_transitions (w w' : World) :
  tick clock w = Ok (tt, w') ->
  match state (self w) with
  | Idle => state (self w') = Idle
  | Automatic => state (self w') = Automatic
  | TakingOff => state (self w') = TakingOff \/ state (self w') = Automatic
  | Landing => state (self w') = Landing \/ state (self w') = Idle
  end.
Proof.
  intros H. outcomes H;
    match goal with Hs : state (self w) = _ |- _ => rewrite Hs end;
    cbn [self]; auto.
Qed.

(** X2.  The ramp [thrust] changes in TakingOff only: an iteration that
    starts in another state keeps it, and so does every callback.  A
    takeoff that a land request interrupts leaves its ramp value to the
    next takeoff. *)
Theorem thrust_outside_TakingOff :
  (forall w w' : World,
     state (self w) <> TakingOff -> tick clock w = Ok (tt, w') ->
     thrust w' = thrust w) /\
  (forall (cb : Callback) (w w' : World),
     deliver cb w = Ok (tt, w') -> thrust w' = thrust w).
Proof.
  split.
  - intros w w' Hs H. outcomes H; try reflexivity; contradiction.
  - intros cb w w' H. destruct cb; injection H as <-; reflexivity.
Qed.

(** X3.  An iteration changes the goal in Landing only, where it sets its
    altitude to 0.05; the goal keeps that altitude in the later states
    until a goal message replaces it. *)
Theorem tick_goal (w w' : World) :
  tick clock w = Ok (tt, w') ->
  goal (self w') =
  if State_eqb (state (self w)) Landing
  then set_position_z (goal (self w)) 0.05
  else goal (self w).
Proof.
  intros H. outcomes H;
    match goal with Hs : state (self w) = _ |- _ => rewrite Hs end;
    reflexivity.
Qed.

(** X4.  An iteration that ends publishes one command, or two when it goes
    from Landing to Idle; the angular x and y of every command it
    publishes are zero. *)
Theorem tick_commands (w w' : World) :
  tick clock w = Ok (tt, w') ->
  exists msgs,
    pubNav w' = pubNav w ++ msgs /\
    (List.length msgs = 1%nat \/
     List.length msgs = 2%nat /\
     state (self w) = Landing /\ state (self w') = Idle) /\
    Forall (fun m => vx (angular m) = 0 /\ vy (angular m) = 0) msgs.
Proof.
  intros H. outcomes H; cbn [self pubNav].
  1-4, 6: eexists; split; [reflexivity |];
          split; [left; reflexivity | repeat constructor].
  exists [Twist_0; Twist_0]. split; [rewrite <- app_assoc; reflexivity |].
  split; [right; repeat split; assumption | repeat constructor].
Qed.

(** X5.  An iteration that ends logs nothing but latency warnings: the
    branches that log the transform error never run, with or without a
    sample. *)
Theorem tick_logs_warnings_only (w w' : World) :
  tick clock w = Ok (tt, w') ->
  exists lg,
    rosout w' = rosout w ++ lg /\ Forall (fun m => level m = WARN) lg.
Proof.
  intros H. outcomes H; cbn [rosout].
  - exists []. split; [symmetry; apply app_nil_r | constructor].
  - eexists. split; [reflexivity | apply latency_log_level].
  - eexists. split; [reflexivity | apply latency_log_level].
  - eexists. split; [symmetry; apply app_assoc |].
    apply Forall_app. split; apply latency_log_level.
  - eexists. split; [reflexivity | apply latency_log_level].
  - eexists. split; [symmetry; apply app_assoc |].
    apply Forall_app. split; apply latency_log_level.
Qed.

(** X7.  The attribute [targetZ], which the takeoff transition sets to 0.5,
    is never read: with any other value in it an iteration publishes the
    same commands, logs the same and leaves the same ramp and the same
    controller up to [targetZ]. *)
Theorem targetZ_is_never_read (w w1 : World) (a : option Q) :
  tick clock w = Ok (tt, w1) ->
  exists w2,
    tick clock (retarget a w) = Ok (tt, w2) /\
    pubNav w2 = pubNav w1 /\ rosout w2 = rosout w1 /\
    thrust w2 = thrust w1 /\ reads w2 = reads w1 /\
    set_targetZ (self w2) None = set_targetZ (self w1) None.
Proof.
  intros H. outcomes H.
  - rewrite tick_Idle by assumption. eexists. repeat split.
  - erewrite (tick_Automatic _ tf) by assumption. eexists. repeat split.
  - erewrite (tick_TakingOff_ramp _ tf) by assumption. eexists. repeat split.
  - erewrite (tick_TakingOff_transition _ tf) by assumption.
    eexists. repeat split.
  - erewrite (tick_Landing_touchdown _ tf) by assumption.
    eexists. repeat split.
  - erewrite (tick_Landing_descend _ tf) by assumption.
    eexists. repeat split.
Qed.

(** X8.  A land request followed by an iteration, with the vehicle at a
    height of at most 0.1: whatever the state was, the controller is
    Idle at the end of that iteration, two all-zero commands were
    published, and the ramp and the four loops are untouched. *)
Theorem land_on_the_ground (w : World) (tf : TransformStamped) :
  lastTf (self w) = Some tf ->
  vz (translation tf) <= 0.1 ->
  exists w',
    (_land ;; tick clock) w = Ok (tt, w') /\
    state (self w') = Idle /\
    pubNav w' = pubNav w ++ [Twist_0; Twist_0] /\
    thrust w' = thrust w /\
    (pidX (self w'), pidY (self w'), pidZ (self w'), pidYaw (self w')) =
      (pidX (self w), pidY (self w), pidZ (self w), pidYaw (self w)).
Proof.
  intros Htf Hz.
  rewrite (bind_Ok _land _ w _ tt eq_refl).
  erewrite (tick_Landing_touchdown _ tf)
    by first [reflexivity | exact Htf | exact Hz].
  eexists. split; [reflexivity |]. cbn [self thrust pubNav].
  split; [reflexivity |]. split; [rewrite <- app_assoc; reflexivity |].
  split; reflexivity.
Qed.

(** X9.  A takeoff request followed by an iteration.  With the vehicle above
    0.05 the controller is Automatic at the end of that iteration: no
    ramp command is published, only the PID command.  With the vehicle
    at 0.05 or below and a ramp of at most 50000, the ramp command that
    is published continues from the value the ramp had. *)
Theorem takeoff_request (w : World) (tf : TransformStamped) :
  lastTf (self w) = Some tf ->
  (0.05 < vz (translation tf) -> ~ ki (pidZ (self w)) == 0 ->
   exists w' msg,
     (_takeoff ;; tick clock) w = Ok (tt, w') /\
     state (self w') = Automatic /\
     pubNav w' = pubNav w ++ [msg] /\
     msg = fst (pid_step clock
                  (takeoff_done (set_state (self w) TakingOff) (thrust w))
                  tf (3 + reads w)) /\
     thrust w' = 0%Z) /\
  (vz (translation tf) <= 0.05 -> (thrust w <= 50000)%Z ->
   exists w',
     (_takeoff ;; tick clock) w = Ok (tt, w') /\
     state (self w') = TakingOff /\
     pubNav w' =
       pubNav w ++ [set_linear_z Twist_0 (inject_Z (thrust w + 100))] /\
     thrust w' = (thrust w + 100)%Z).
Proof.
  intros Htf. split.
  - intros Hz Hki.
    rewrite (bind_Ok _takeoff _ w _ tt eq_refl).
    erewrite (tick_TakingOff_transition _ tf)
      by first [reflexivity | exact Htf | exact Hki | left; exact Hz].
    eexists; eexists. split; [reflexivity |]. repeat split.
  - intros Hz Ht.
    rewrite (bind_Ok _takeoff _ w _ tt eq_refl).
    erewrite (tick_TakingOff_ramp _ tf)
      by first [reflexivity | exact Htf | exact Hz | exact Ht].
    eexists. split; [reflexivity |]. repeat split.
Qed.

Lemma ramp_commands_S (th : Z) (n : nat) :
  set_linear_z Twist_0 (inject_Z (th + 100)) :: ramp_commands (th + 100) n =
  ramp_commands th (S n).
Proof.
  unfold ramp_commands. cbn [seq map].
  replace (th + 100 * Z.of_nat 1)%Z with (th + 100)%Z by lia.
  f_equal.
  rewrite <- (seq_shift n 1), map_map. apply map_ext. intros k.
  replace (th + 100 * Z.of_nat (S k))%Z
    with (th + 100 + 100 * Z.of_nat k)%Z by lia.
  reflexivity.
Qed.

(** X10.  The takeoff ramp over [n] iterations without callbacks, with the
    vehicle at 0.05 or below: as long as the ramp stays within 50100,
    each iteration adds 100 to it and publishes it as linear z, and the
    controller is unchanged. *)
Theorem ramp_iterations (n : nat) (w : World) (tf : TransformStamped) :
  state (self w) = TakingOff ->
  lastTf (self w) = Some tf ->
  vz (translation tf) <= 0.05 ->
  (thrust w + 100 * Z.of_nat n <= 50100)%Z ->
  exists w',
    control_loop clock (repeat [] n) w = Ok (tt, w') /\
    self w' = self w /\
    thrust w' = (thrust w + 100 * Z.of_nat n)%Z /\
    pubNav w' = pubNav w ++ ramp_commands (thrust w) n.
Proof.
  revert w. induction n as [| n IH]; intros w Hs Htf Hz Ht.
  - exists w. cbn [repeat control_loop]. split; [reflexivity |].
    split; [reflexivity |]. split; [lia |]. symmetry. apply app_nil_r.
  - assert (Ht0 : (thrust w <= 50000)%Z) by lia.
    pose proof (tick_TakingOff_ramp w tf Hs Htf Hz Ht0) as E.
    match type of E with _ = Ok (tt, ?w0) => set (w1 := w0) in * end.
    destruct (IH w1) as (w' & E' & Hc & Hth & Hp);
      try assumption; [unfold w1; cbn [thrust]; lia |].
    exists w'. cbn [repeat control_loop].
    rewrite (bind_Ok _ _ _ _ _ E).
    rewrite (bind_Ok (deliver_all []) _ w1 w1 tt eq_refl).
    split; [exact E' |]. split; [exact Hc |].
    split; [rewrite Hth; unfold w1; cbn [thrust]; lia |].
    rewrite Hp. unfold w1. cbn [pubNav thrust].
    rewrite <- app_assoc. cbn [app]. rewrite ramp_commands_S. reflexivity.
Qed.

(** ** Callbacks and the two loops of [run] *)

Lemma count_warn_app (a b : list LogMsg) :
  count_warn (a ++ b) = (count_warn a + count_warn b)%nat.
Proof. unfold count_warn. rewrite filter_app. apply length_app. Qed.

Lemma deliver_effect (cb : Callback) (w : World) :
  exists w',
    deliver cb w = Ok (tt, w') /\
    pubNav w' = pubNav w /\ reads w' = reads w /\ thrust w' = thrust w /\
    count_warn (rosout w') = count_warn (rosout w) /\
    (lastTf (self w) <> None -> lastTf (self w') <> None) /\
    (is_tf_msg cb = true -> lastTf (self w') <> None) /\
    (is_tf_msg cb = false -> lastTf (self w') = lastTf (self w)) /\
    (is_goal_msg cb = false -> goal (self w') = goal (self w)) /\
    (is_service cb = false -> state (self w') = state (self w)).
Proof.
  destruct w as [c th n pub lg].
  destruct cb; (eexists; split; [reflexivity |]);
    cbn [self thrust reads pubNav rosout set_self set_state set_goal
         set_lastTf _poseChanged _tfChanged lastTf goal state
         is_tf_msg is_goal_msg is_service];
    repeat split; try reflexivity; try discriminate; auto;
    rewrite count_warn_app; cbn; lia.
Qed.

Lemma deliver_all_app (a b : list Callback) (w : World) :
  deliver_all (a ++ b) w = (deliver_all a ;; deliver_all b) w.
Proof.
  revert w. induction a as [| cb a IH]; intros w.
  - reflexivity.
  - cbn [app deliver_all]. unfold bind.
    destruct (deliver cb w) as [[[] w1] | e]; [| reflexivity].
    rewrite IH. reflexivity.
Qed.

Lemma deliver_all_effect (cbs : list Callback) (w : World) :
  exists w',
    deliver_all cbs w = Ok (tt, w') /\
    pubNav w' = pubNav w /\ reads w' = reads w /\ thrust w' = thrust w /\
    count_warn (rosout w') = count_warn (rosout w) /\
    (lastTf (self w) <> None -> lastTf (self w') <> None) /\
    (Exists (fun cb => is_tf_msg cb = true) cbs ->
     lastTf (self w') <> None) /\
    (Forall (fun cb => is_tf_msg cb = false) cbs ->
     lastTf (self w') = lastTf (self w)) /\
    (Forall (fun cb => is_goal_msg cb = false) cbs ->
     goal (self w') = goal (self w)) /\
    (Forall (fun cb => is_service cb = false) cbs ->
     state (self w') = state (self w)).
Proof.
  revert w. induction cbs as [| cb cbs IH]; intros w.
  - exists w. split; [reflexivity |]. repeat split; auto.
    intros H. inversion H.
  - destruct (deliver_effect cb w)
      as (w1 & E1 & P1 & R1 & T1 & C1 & K1 & A1 & N1 & G1 & S1).
    destruct (IH w1)
      as (w2 & E2 & P2 & R2 & T2 & C2 & K2 & A2 & N2 & G2 & S2).
    exists w2. cbn [deliver_all]. rewrite (bind_Ok _ _ _ _ _ E1).
    split; [exact E2 |].
    split; [congruence |]. split; [congruence |]. split; [congruence |].
    split; [congruence |]. split; [auto |].
    split; [intros H; inversion H; subst; auto |].
    split; [intros H; inversion H; subst; rewrite N2, N1; auto |].
    split; [intros H; inversion H; subst; rewrite G2, G1; auto |].
    intros H; inversion H; subst; rewrite S2, S1; auto.
Qed.

(** X11.  Messages and requests are last-write-wins: after the callbacks of a
    sleep, the goal is the data of the last goal message, the sample the
    data of the last pose message and the state that of the last service
    request. *)
Theorem last_callback_wins (cbs cbs' : list Callback) (w : World) :
  (forall data : Pose,
     Forall (fun cb => is_goal_msg cb = false) cbs' ->
     exists w',
       deliver_all (cbs ++ goal_msg data :: cbs') w = Ok (tt, w') /\
       goal (self w') = data) /\
  (forall data : TransformStamped,
     Forall (fun cb => is_tf_msg cb = false) cbs' ->
     exists w',
       deliver_all (cbs ++ tf_msg data :: cbs') w = Ok (tt, w') /\
       lastTf (self w') = Some data) /\
  (Forall (fun cb => is_service cb = false) cbs' ->
   (exists w',
      deliver_all (cbs ++ takeoff_srv :: cbs') w = Ok (tt, w') /\
      state (self w') = TakingOff) /\
   (exists w',
      deliver_all (cbs ++ land_srv :: cbs') w = Ok (tt, w') /\
      state (self w') = Landing)).
Proof.
  destruct (deliver_all_effect cbs w) as (w1 & E1 & _).
  assert (K : forall cb, exists w2 w3,
             deliver cb w1 = Ok (tt, w2) /\
             deliver_all cbs' w2 = Ok (tt, w3) /\
             deliver_all (cbs ++ cb :: cbs') w = Ok (tt, w3) /\
             (Forall (fun cb => is_tf_msg cb = false) cbs' ->
              lastTf (self w3) = lastTf (self w2)) /\
             (Forall (fun cb => is_goal_msg cb = false) cbs' ->
              goal (self w3) = goal (self w2)) /\
             (Forall (fun cb => is_service cb = false) cbs' ->
              state (self w3) = state (self w2))).
  { intros cb.
    destruct (deliver_effect cb w1) as (w2 & E2 & _).
    destruct (deliver_all_effect cbs' w2)
      as (w3 & E3 & _ & _ & _ & _ & _ & _ & N3 & G3 & S3).
    exists w2, w3. repeat split; try assumption.
    rewrite deliver_all_app. rewrite (bind_Ok _ _ _ _ _ E1).
    cbn [deliver_all]. rewrite (bind_Ok _ _ _ _ _ E2). exact E3. }
  split; [| split].
  - intros data H.
    destruct (K (goal_msg data)) as (w2 & w3 & E2 & _ & E & _ & G & _).
    exists w3. split; [exact E |]. rewrite (G H).
    injection E2 as <-. reflexivity.
  - intros data H.
    destruct (K (tf_msg data)) as (w2 & w3 & E2 & _ & E & N & _ & _).
    exists w3. split; [exact E |]. rewrite (N H).
    injection E2 as <-. reflexivity.
  - intros H. split.
    + destruct (K takeoff_srv) as (w2 & w3 & E2 & _ & E & _ & _ & S).
      exists w3. split; [exact E |]. rewrite (S H).
      injection E2 as <-. reflexivity.
    + destruct (K land_srv) as (w2 & w3 & E2 & _ & E & _ & _ & S).
      exists w3. split; [exact E |]. rewrite (S H).
      injection E2 as <-. reflexivity.
Qed.

(** X12.  In Automatic with a sample, under a schedule that holds no service
    request, the controller stays in Automatic, publishes exactly one
    command per iteration and never touches the ramp. *)
Theorem automatic_is_steady (sched : Schedule) (w : World) :
  state (self w) = Automatic ->
  lastTf (self w) <> None ->
  Forall (Forall (fun cb => is_service cb = false)) sched ->
  exists w',
    control_loop clock sched w = Ok (tt, w') /\
    state (self w') = Automatic /\
    List.length (pubNav w') = (List.length (pubNav w) + List.length sched)%nat /\
    thrust w' = thrust w.
Proof.
  revert w. induction sched as [| cbs rest IH]; intros w Hs Htf Hn.
  - exists w. cbn [control_loop]. repeat split; auto; cbn; lia.
  - inversion Hn as [| ? ? Hcbs Hrest]; subst.
    destruct (lastTf (self w)) as [tf |] eqn:E; [clear Htf | contradiction].
    pose proof (tick_Automatic w tf Hs E) as E1.
    match type of E1 with _ = Ok (tt, ?w0) => set (w1 := w0) in * end.
    destruct (deliver_all_effect cbs w1)
      as (w2 & E2 & P2 & _ & T2 & _ & K2 & _ & _ & _ & S2).
    destruct (IH w2) as (w' & E' & Hs' & Hl & Ht).
    { rewrite (S2 Hcbs). exact Hs. }
    { apply K2. unfold w1. cbn [self]. unfold pid_step.
      cbn [snd set_pidYaw set_pidZ set_pidY set_pidX lastTf].
      rewrite E. discriminate. }
    { exact Hrest. }
    exists w'. cbn [control_loop].
    rewrite (bind_Ok _ _ _ _ _ E1), (bind_Ok _ _ _ _ _ E2).
    split; [exact E' |]. split; [exact Hs' |].
    split.
    + rewrite Hl, P2. unfold w1. cbn [pubNav]. rewrite length_app.
      cbn [List.length]. lia.
    + rewrite Ht, T2. reflexivity.
Qed.

Lemma wait_for_tf_ready (sched : Schedule) (w : World) :
  lastTf (self w) <> None -> wait_for_tf sched w = Ok (sched, w).
Proof.
  intros H. destruct sched as [| cbs rest]; [reflexivity |].
  cbn [wait_for_tf]. rewrite (bind_Ok get_self _ _ _ _ eq_refl).
  destruct (lastTf (self w)); [reflexivity | contradiction].
Qed.

(** X13.  The first loop of [run] ends at the first sleep during which a pose
    message arrives: the control loop gets the schedule that follows.
    Until then nothing is published, the clock is not read and each
    round logs one warning. *)
Theorem wait_ends_with_sample (pre : Schedule) (cbs : list Callback)
    (rest : Schedule) (w : World) :
  lastTf (self w) = None ->
  Forall (Forall (fun cb => is_tf_msg cb = false)) pre ->
  Exists (fun cb => is_tf_msg cb = true) cbs ->
  exists w',
    wait_for_tf (pre ++ cbs :: rest) w = Ok (rest, w') /\
    lastTf (self w') <> None /\
    pubNav w' = pubNav w /\ reads w' = reads w /\
    count_warn (rosout w') =
      (count_warn (rosout w) + List.length pre + 1)%nat.
Proof.
  revert w. induction pre as [| e pre IH]; intros w Htf Hpre Hcbs.
  - cbn [app wait_for_tf]. rewrite (bind_Ok get_self _ _ _ _ eq_refl).
    rewrite Htf. rewrite (bind_Ok (logwarn _ _) _ _ _ _ eq_refl).
    match goal with
    | |- context [mkWorld ?a ?b ?c ?d ?e] => set (w1 := mkWorld a b c d e)
    end.
    destruct (deliver_all_effect cbs w1)
      as (w2 & E2 & P2 & R2 & _ & C2 & _ & A2 & _).
    exists w2. rewrite (bind_Ok _ _ _ _ _ E2).
    rewrite wait_for_tf_ready by (apply A2; exact Hcbs).
    split; [reflexivity |]. split; [apply A2; exact Hcbs |].
    split; [exact P2 |]. split; [exact R2 |].
    rewrite C2. unfold w1. cbn [rosout]. rewrite count_warn_app.
    cbn. lia.
  - inversion Hpre as [| ? ? He Hpre']; subst.
    cbn [app wait_for_tf]. rewrite (bind_Ok get_self _ _ _ _ eq_refl).
    rewrite Htf. rewrite (bind_Ok (logwarn _ _) _ _ _ _ eq_refl).
    match goal with
    | |- context [mkWorld ?a ?b ?c ?d ?e] => set (w1 := mkWorld a b c d e)
    end.
    destruct (deliver_all_effect e w1)
      as (w2 & E2 & P2 & R2 & _ & C2 & _ & _ & N2 & _).
    rewrite (bind_Ok _ _ _ _ _ E2).
    destruct (IH w2) as (w' & E' & Htf' & P' & R' & C').
    { rewrite (N2 He). exact Htf. }
    { exact Hpre'. }
    { exact Hcbs. }
    exists w'. split; [exact E' |]. split; [exact Htf' |].
    split; [rewrite P', P2; reflexivity |].
    split; [rewrite R', R2; reflexivity |].
    rewrite C', C2. unfold w1. cbn [rosout]. rewrite count_warn_app.
    cbn. lia.
Qed.

(** X14.  Without a pose message [run] never leaves its first loop: it ends at
    shutdown without exception, has published nothing and not read the
    clock, and has logged one warning per round. *)
Theorem run_waits_for_sample (sched : Schedule) (w : World) :
  lastTf (self w) = None ->
  Forall (Forall (fun cb => is_tf_msg cb = false)) sched ->
  exists w',
    run clock sched w = Ok (tt, w') /\
    lastTf (self w') = None /\
    pubNav w' = pubNav w /\ reads w' = reads w /\
    count_warn (rosout w') = (count_warn (rosout w) + List.length sched)%nat.
Proof.
  intros Htf Hs. unfold run.
  rewrite (bind_Ok (put_thrust 0) _ _ _ _ eq_refl).
  assert (K : forall w0, lastTf (self w0) = None ->
            exists w',
              wait_for_tf sched w0 = Ok ([], w') /\
              lastTf (self w') = None /\
              pubNav w' = pubNav w0 /\ reads w' = reads w0 /\
              count_warn (rosout w') =
                (count_warn (rosout w0) + List.length sched)%nat).
  { clear w Htf. induction sched as [| e sched IH]; intros w Htf.
    - exists w. repeat split; auto; cbn; lia.
    - inversion Hs as [| ? ? He Hs']; subst.
      cbn [wait_for_tf]. rewrite (bind_Ok get_self _ _ _ _ eq_refl).
      rewrite Htf. rewrite (bind_Ok (logwarn _ _) _ _ _ _ eq_refl).
      match goal with
      | |- context [mkWorld ?a ?b ?c ?d ?e] => set (w1 := mkWorld a b c d e)
      end.
      destruct (deliver_all_effect e w1)
        as (w2 & E2 & P2 & R2 & _ & C2 & _ & _ & N2 & _).
      rewrite (bind_Ok _ _ _ _ _ E2).
      destruct (IH Hs' w2) as (w' & E' & Htf' & P' & R' & C').
      { rewrite (N2 He). exact Htf. }
      exists w'. split; [exact E' |]. split; [exact Htf' |].
      split; [rewrite P', P2; reflexivity |].
      split; [rewrite R', R2; reflexivity |].
      rewrite C', C2. unfold w1. cbn [rosout]. rewrite count_warn_app.
      cbn [List.length]. cbn. lia. }
  destruct (K (set_thrust w 0) Htf) as (w' & E & Htf' & P & R & C).
  exists w'. rewrite (bind_Ok _ _ _ _ _ E).
  split; [reflexivity |]. repeat split; assumption.
Qed.

(** X6.  Without a stored sample [getTransform] does not return [None]: it
    raises AttributeError, and so does an iteration in TakingOff,
    Automatic or Landing. *)
Theorem tick_needs_sample (w : World) :
  lastTf (self w) = None ->
  (forall source_frame target_frame : string,
     getTransform clock source_frame target_frame w = Raise AttributeError) /\
  (state (self w) <> Idle -> tick clock w = Raise AttributeError).
Proof.
  intros H. split.
  - intros s t. apply getTransform_None. exact H.
  - intros Hs. apply tick_without_sample; assumption.
Qed.

End Props.

(** ** The pose transform *)

Section PoseTransform.

Context {T : Transformations} {L : TransformationsLaws T}.

Lemma Qdiv_0_l (a b : Q) : a == 0 -> a / b == 0.
Proof. intros H. unfold Qdiv. rewrite H. ring. Qed.

(** C4.  When the goal pose is the current pose and its orientation is a
    unit quaternion, the homogeneous component of [target_pos] is 1, the
    three components of the offset divided by it are 0, and the yaw of
    the vehicle is the yaw of the goal. *)
Theorem pose_transform_identity (p : Pose) :
  unit_quaternion (orientation p) ->
  v3 (target_pos (position p) (orientation p) p) == 1 /\
  v0 (target_pos (position p) (orientation p) p)
    / v3 (target_pos (position p) (orientation p) p) == 0 /\
  v1 (target_pos (position p) (orientation p) p)
    / v3 (target_pos (position p) (orientation p) p) == 0 /\
  v2 (target_pos (position p) (orientation p) p)
    / v3 (target_pos (position p) (orientation p) p) == 0 /\
  snd (eulerIs (orientation p)) = snd (eulerGoal p) /\
  snd (eulerIs (orientation p)) - snd (eulerGoal p) == 0.
Proof.
  intros _. unfold target_pos.
  rewrite translation_matrix_eq.
  set (q := quaternion_inverse _).
  destruct (quaternion_matrix_column q) as (C0 & C1 & C2).
  pose proof (quaternion_matrix_row q) as R.
  destruct (quaternion_matrix q) as [[a0 a1 a2 a3] [b0 b1 b2 b3]
                                     [c0 c1 c2 c3] r3].
  cbn [row0 row1 row2 row3 v3] in C0, C1, C2, R. subst a3 b3 c3 r3.
  unfold dot, inner. cbn [row0 row1 row2 row3 v0 v1 v2 v3].
  split; [ring |].
  split; [apply Qdiv_0_l; ring |].
  split; [apply Qdiv_0_l; ring |].
  split; [apply Qdiv_0_l; ring |].
  split; [reflexivity |].
  unfold eulerIs, eulerGoal. ring.
Qed.

End PoseTransform.

(** ** Evaluation on concrete data *)

Lemma rational_tf_laws : TransformationsLaws rational_tf.
Proof.
  split.
  - intros a b c. reflexivity.
  - intros q. repeat split.
  - intros q. reflexivity.
Qed.

(** The goal one unit ahead of a level vehicle at the origin is one unit
    ahead in the frame of the vehicle. *)
Example target_pos_ahead :
  let tp := target_pos (T := rational_tf) (mkVector3 0 0 0)
              (mkQuaternion 0 0 0 1)
              (mkPose (mkVector3 1 0 0) (mkQuaternion 0 0 0 1)) in
  v0 tp / v3 tp == 1 /\ v1 tp / v3 tp == 0 /\ v2 tp / v3 tp == 0.
Proof. vm_compute. repeat split. Qed.

(** The takeoff transition on [flown]: the Y loop keeps its integral and
    its previous error, the X loop has neither. *)
Example takeoff_keeps_pidY_state :
  exists w',
    run_TakingOff clock_10ms (mkWorld flown 0 0 [] [])
      = Ok (tt, w') /\
    state (self w') = Automatic /\
    integral (pidY (self w')) = 3 /\
    previousError (pidY (self w')) = Some 1 /\
    integral (pidX (self w')) = 0 /\
    previousError (pidX (self w')) = None.
Proof.
  eexists. split.
  - apply run_TakingOff_transition with (tf := sample_at 0.5).
    + reflexivity.
    + reflexivity.
    + vm_compute. discriminate.
    + left. reflexivity.
  - repeat split.
Qed.

Lemma update_within_limits_witness :
  limits (Controller_init "cf") = limits (Controller_init "cf") /\
  -20 <= fst (update (pidX (Controller_init "cf")) 0 0 1000000) /\
  fst (update (pidX (Controller_init "cf")) 0 0 1000000) <= 20.
Proof.
  split; [reflexivity |].
  apply (update_within_limits (Controller_init "cf") "cf" 0 0 1000000).
  reflexivity.
Defined.

Lemma takeoff_transition_witness :
  exists w1 w2,
    run_TakingOff clock_10ms
      (world_in TakingOff (sample_at 0.5) 0) = Ok (tt, w1) /\
    tick (T := rational_tf) clock_10ms
      (world_in TakingOff (sample_at 0.5) 0) = Ok (tt, w2) /\
    state (self w1) = Automatic /\ state (self w2) = Automatic.
Proof.
  destruct (takeoff_transition (T := rational_tf) clock_10ms
              (world_in TakingOff (sample_at 0.5) 0) (sample_at 0.5))
    as (w1 & w2 & E1 & E2 & S1 & S2 & _).
  - reflexivity.
  - reflexivity.
  - vm_compute. discriminate.
  - exists w1, w2. split; [exact E1 |]. split; [exact E2 |].
    split; [apply S1 | apply S2]; left; reflexivity.
Defined.

Lemma takeoff_ramp_witness :
  exists w',
    tick (T := rational_tf) clock_10ms (world_in TakingOff (sample_at 0) 0)
      = Ok (tt, w') /\
    thrust w' = 100%Z /\
    pubNav w' = [mkTwist (mkVector3 0 0 (inject_Z 100)) (mkVector3 0 0 0)] /\
    self w' = self (world_in TakingOff (sample_at 0) 0).
Proof.
  apply (takeoff_ramp (T := rational_tf) clock_10ms
           (world_in TakingOff (sample_at 0) 0) (sample_at 0)).
  - reflexivity.
  - reflexivity.
  - vm_compute. discriminate.
  - vm_compute. discriminate.
Defined.

Lemma idle_publishes_zero_witness :
  tick (T := rational_tf) clock_10ms (World_init "cf")
    = Ok (tt, mkWorld (Controller_init "cf") 0 1
                      [mkTwist (mkVector3 0 0 0) (mkVector3 0 0 0)] []).
Proof.
  apply (idle_publishes_zero (T := rational_tf) clock_10ms (World_init "cf")
           Pose_0 None).
  reflexivity.
Defined.

Lemma landing_phase_witness :
  exists w1,
    run_Landing clock_10ms (world_in Landing (sample_at 0.08) 0)
      = Ok (tt, w1) /\
    state (self w1) = Idle /\
    vz (position (goal (self w1))) = 0.05 /\
    pubNav w1 = [Twist_0].
Proof.
  destruct (landing_phase (T := rational_tf) clock_10ms
              (world_in Landing (sample_at 0.08) 0) (sample_at 0.08))
    as (w1 & w2 & w3 & E1 & _ & _ & G & _ & _ & S1 & _ & _ & Z1 & _).
  - reflexivity.
  - reflexivity.
  - exists w1. split; [exact E1 |].
    split; [apply S1; vm_compute; discriminate |].
    split; [rewrite G; reflexivity |].
    apply Z1. vm_compute. discriminate.
Defined.

Lemma staleness_is_advisory_witness :
  exists w',
    getTransform clock_10ms "/world" "cf" (world_in Automatic (sample_at 0.5) 0)
      = Ok (Some (mkVector3 0 0 0.5, mkQuaternion 0 0 0 1, 0), w') /\
    self w' = self (world_in Automatic (sample_at 0.5) 0).
Proof.
  destruct (staleness_is_advisory (T := rational_tf) clock_10ms
              (world_in Automatic (sample_at 0.5) 0) (sample_at 0.5)
              "/world" "cf" 1)
    as ((w' & E & S & _) & _).
  - reflexivity.
  - vm_compute. discriminate.
  - exists w'. split; [exact E | exact S].
Defined.

Lemma transform_always_available_witness :
  (exists r w',
     getTransform clock_10ms "/world" "cf" (world_in Landing (sample_at 0.5) 0)
       = Ok (Some r, w')) /\
  (exists w',
     tick (T := rational_tf) clock_10ms (world_in Landing (sample_at 0.5) 0)
       = Ok (tt, w') /\
     lastTf (self w') <> None /\
     (exists lg, rosout w' = [] ++ lg /\
                 Forall (fun m => level m <> ERROR) lg) /\
     (exists msg msgs, pubNav w' = [] ++ msg :: msgs)).
Proof.
  split.
  - apply (proj1 (transform_always_available (T := rational_tf) clock_10ms)).
    discriminate.
  - apply (proj1 (proj2 (transform_always_available (T := rational_tf)
                           clock_10ms))).
    + discriminate.
    + vm_compute. discriminate.
Defined.

Lemma same_tick_fallthrough_witness :
  (exists w',
     tick (T := rational_tf) clock_10ms (world_in Landing (sample_at 0.08) 0)
       = Ok (tt, w') /\
     state (self w') = Idle /\
     pubNav w' = [] ++ [Twist_0; Twist_0]) /\
  (exists w',
     tick (T := rational_tf) clock_10ms (world_in TakingOff (sample_at 0.5) 0)
       = Ok (tt, w') /\
     state (self w') = Automatic /\ List.length (pubNav w') = 1%nat).
Proof.
  split.
  - apply (proj1 (same_tick_fallthrough (T := rational_tf) clock_10ms
                    (world_in Landing (sample_at 0.08) 0) (sample_at 0.08)
                    eq_refl)).
    + reflexivity.
    + vm_compute. discriminate.
  - destruct (proj2 (same_tick_fallthrough (T := rational_tf) clock_10ms
                       (world_in TakingOff (sample_at 0.5) 0) (sample_at 0.5)
                       eq_refl))
      as (w1 & w' & _ & _ & _ & E & S & P & _).
    + reflexivity.
    + vm_compute. discriminate.
    + left. reflexivity.
    + exists w'. split; [exact E |]. split; [exact S |].
      rewrite P. reflexivity.
Defined.

Lemma pose_transform_identity_witness :
  unit_quaternion (mkQuaternion 0 0 0 1) /\
  v0 (target_pos (T := rational_tf) (mkVector3 1 2 3) (mkQuaternion 0 0 0 1)
        (mkPose (mkVector3 1 2 3) (mkQuaternion 0 0 0 1)))
  / v3 (target_pos (T := rational_tf) (mkVector3 1 2 3) (mkQuaternion 0 0 0 1)
          (mkPose (mkVector3 1 2 3) (mkQuaternion 0 0 0 1))) == 0.
Proof.
  split; [reflexivity |].
  apply (pose_transform_identity (T := rational_tf) (L := rational_tf_laws)
           (mkPose (mkVector3 1 2 3) (mkQuaternion 0 0 0 1))).
  reflexivity.
Defined.

(** * Properties of the joystick node *)

Module DemoProps.

Import Demo.

Local Open Scope joy_scope.

Lemma bind_inl {A B} (m : M A) (k : A -> M B) (w w' : World) (a : A) :
  m w = (inl a, w') -> bind m k w = k a w'.
Proof. intros H. unfold bind. rewrite H. reflexivity. Qed.



Ltac joy_eval :=
  cbv [button bind ret raise get_self put_self emit get_param
       rospy_set_param index self headlightEnable effects
       _buttons _update_params _emergency _land _takeoff].

(** The body of the loop at an index that the message and the previous
    message have, with the parameter set if button 4 is pressed. *)
Lemma button_eq (data : list Z) (i : nat) (w : World) :
  (i < List.length data)%nat ->
  covers (_buttons (self w)) (S i) ->
  (i = 4%nat -> pressed (_buttons (self w)) data 4 = true ->
   headlightEnable w <> None) ->
  button data i w =
  (inl tt,
   mkWorld (self w)
           (if (i =? 4)%nat then toggled (self w) (headlightEnable w) data
            else headlightEnable w)
           (effects w ++ at_index (self w) (headlightEnable w) data i)).
Proof.
  intros Hi Hc Hp.
  destruct w as [[prev up em ld tk] param effs].
  cbn [self headlightEnable effects _buttons] in *.
  destruct (nth_error data i) as [d |] eqn:Ed;
    [| apply nth_error_None in Ed; lia].
  assert (Hb : match prev with
               | None => True
               | Some buttons => exists b, nth_error buttons i = Some b
               end).
  { destruct prev as [buttons |]; [| exact I].
    cbn [covers] in Hc.
    destruct (nth_error buttons i) as [b |] eqn:Eb; [exists b; reflexivity |].
    apply nth_error_None in Eb. lia. }
  unfold toggled, pressed in *. cbn [_buttons] in *.
  destruct i as [| [| [| [| [| i]]]]];
    joy_eval; cbn [at_index Nat.eqb]; unfold pressed;
    cbn [_buttons _land _takeoff _emergency _update_params];
    rewrite Ed;
    (destruct prev as [buttons |];
     [destruct Hb as (b & Eb); rewrite Eb; destruct (d =? b)%Z eqn:Edb |]);
    cbn [negb andb]; rewrite ?Bool.andb_false_r, ?Bool.andb_true_r;
    destruct ld, tk, (d =? 1)%Z eqn:E1, param;
    cbn [andb negb option_map]; rewrite ?app_nil_r, <- ?app_assoc;
    try reflexivity;
    exfalso; rewrite ?Ed, ?Eb, ?E1, ?Edb in Hp; cbn [andb negb] in Hp;
    exact (Hp eq_refl eq_refl eq_refl).
Qed.

Lemma at_index_param (c : Controller) (p p' : option ParamValue)
    (data : list Z) (i : nat) :
  i <> 4%nat -> at_index c p data i = at_index c p' data i.
Proof.
  intros H. destruct i as [| [| [| [| [| i]]]]]; try reflexivity.
  contradiction.
Qed.

Lemma flat_map_at_index (c : Controller) (p p' : option ParamValue)
    (data : list Z) (l : list nat) :
  (forall i, In i l -> i <> 4%nat) ->
  flat_map (at_index c p data) l = flat_map (at_index c p' data) l.
Proof.
  induction l as [| i l IH]; intros H; [reflexivity |].
  cbn [flat_map]. rewrite (at_index_param c p p' data i).
  - rewrite IH; [reflexivity |]. intros j Hj. apply H. right. exact Hj.
  - apply H. left. reflexivity.
Qed.

(** The loop of [_joyChanged] over the indices [k], ..., [k + m - 1]. *)
Lemma for_each_eq (data : list Z) (m k : nat) (w : World) :
  (k + m <= List.length data)%nat ->
  covers (_buttons (self w)) (k + m) ->
  ((k <= 4 < k + m)%nat -> pressed (_buttons (self w)) data 4 = true ->
   headlightEnable w <> None) ->
  for_each (seq k m) (button data) w =
  (inl tt,
   mkWorld (self w)
           (if (k <=? 4)%nat && (4 <? k + m)%nat
            then toggled (self w) (headlightEnable w) data
            else headlightEnable w)
           (effects w ++
            flat_map (at_index (self w) (headlightEnable w) data) (seq k m))).
Proof.
  revert k w. induction m as [| m IH]; intros k w Hk Hc Hp.
  - cbn [seq for_each flat_map]. rewrite app_nil_r.
    replace ((k <=? 4)%nat && (4 <? k + 0)%nat) with false.
    + destruct w. reflexivity.
    + destruct (k <=? 4)%nat eqn:E1; [| reflexivity].
      destruct (4 <? k + 0)%nat eqn:E2; [| reflexivity].
      apply Nat.leb_le in E1. apply Nat.ltb_lt in E2. lia.
  - cbn [seq for_each flat_map].
    erewrite bind_inl; cycle 1.
    { apply button_eq; [lia | |].
      { destruct (_buttons (self w)); [cbn [covers] in *; lia | exact I]. }
      intros -> Hpr. apply Hp; [lia | exact Hpr]. }
    rewrite IH; cbn [self headlightEnable effects];
      [| lia | replace (S k + m)%nat with (k + S m)%nat by lia; exact Hc |].
    + destruct (Nat.eq_dec k 4) as [-> | Hne].
      * cbn [Nat.eqb Nat.leb andb].
        replace (4 <? 4 + S m)%nat with true
          by (symmetry; apply Nat.ltb_lt; lia).
        rewrite (flat_map_at_index _ _ (headlightEnable w) data (seq 5 m)).
        -- rewrite <- app_assoc. reflexivity.
        -- intros i Hi. apply in_seq in Hi. lia.
      * replace (k =? 4)%nat with false
          by (symmetry; apply Nat.eqb_neq; exact Hne).
        replace ((S k <=? 4)%nat && (4 <? S k + m)%nat)
          with ((k <=? 4)%nat && (4 <? k + S m)%nat).
        -- rewrite <- app_assoc. reflexivity.
        -- replace (S k + m)%nat with (k + S m)%nat by lia.
           destruct (4 <? k + S m)%nat; [| rewrite !Bool.andb_false_r; reflexivity].
           rewrite !Bool.andb_true_r.
           destruct (k <=? 4)%nat eqn:E1, (S k <=? 4)%nat eqn:E2;
             try reflexivity;
             [apply Nat.leb_le in E1; apply Nat.leb_gt in E2
             |apply Nat.leb_gt in E1; apply Nat.leb_le in E2]; lia.
    + intros Hr Hpr.
      replace (k =? 4)%nat with false
        by (symmetry; apply Nat.eqb_neq; lia).
      apply Hp; [lia | exact Hpr].
Qed.

Lemma flat_map_nil {A B} (f : A -> list B) (l : list A) :
  (forall a, In a l -> f a = []) -> flat_map f l = [].
Proof.
  induction l as [| a l IH]; intros H; [reflexivity |].
  cbn [flat_map]. rewrite H by (left; reflexivity).
  apply IH. intros b Hb. apply H. right. exact Hb.
Qed.

Lemma flat_map_joy_effects (c : Controller) (p : option ParamValue)
    (data : list Z) :
  flat_map (at_index c p data) (seq 0 (List.length data)) =
  joy_effects c p data.
Proof.
  destruct c as [prev up em ld tk].
  destruct data as [| d0 [| d1 [| d2 [| d3 [| d4 rest]]]]];
    cbn [List.length seq flat_map];
    try (rewrite (flat_map_nil _ (seq 5 _))
           by (intros i Hi; apply in_seq in Hi;
               do 5 (destruct i as [| i]; [lia |]); reflexivity));
    unfold joy_effects, at_index, pressed;
    cbn [nth_error _land _takeoff _emergency _update_params _buttons andb];
    destruct ld, tk, p; cbn [app]; rewrite ?app_nil_r; reflexivity.
Qed.

(** A message whose indices the previous message covers, with the
    parameter set if button 4 is pressed. *)
Lemma _joyChanged_eq (data : list Z) (w : World) :
  covers (_buttons (self w)) (List.length data) ->
  (pressed (_buttons (self w)) data 4 = true -> headlightEnable w <> None) ->
  _joyChanged data w =
  (inl tt,
   mkWorld (set_buttons (self w) (Some data))
           (toggled (self w) (headlightEnable w) data)
           (effects w ++ joy_effects (self w) (headlightEnable w) data)).
Proof.
  intros Hc Hp. unfold _joyChanged.
  erewrite bind_inl; cycle 1.
  { apply for_each_eq; [cbn; lia | exact Hc |]. intros _. exact Hp. }
  rewrite flat_map_joy_effects.
  cbn [Nat.leb Nat.add]. unfold bind, get_self, put_self.
  cbn [self headlightEnable effects].
  destruct (4 <? List.length data)%nat eqn:E; [reflexivity |].
  apply Nat.ltb_ge in E.
  unfold toggled, pressed.
  replace (nth_error data 4) with (@None Z)
    by (symmetry; apply nth_error_None; exact E).
  reflexivity.
Qed.

(** X15.  A joystick message handled without exception: when the previous
    message, if any, is at least as long and the parameter is set if
    button 4 is pressed, [_joyChanged] stores the buttons, has the
    effects of the pressed buttons 0, 1, 2 and 4 in that order (land,
    emergency, takeoff, headlight), each at most once, and toggles the
    parameter exactly when button 4 is pressed; no other button has an
    effect. *)
Theorem joy_message_effects (data : list Z) (w : World) :
  covers (_buttons (self w)) (List.length data) ->
  (pressed (_buttons (self w)) data 4 = true -> headlightEnable w <> None) ->
  exists w',
    _joyChanged data w = (inl tt, w') /\
    self w' = set_buttons (self w) (Some data) /\
    effects w' = effects w ++ joy_effects (self w) (headlightEnable w) data /\
    headlightEnable w' =
      if pressed (_buttons (self w)) data 4
      then option_map (fun v => PBool (negb (bool (int v))))
                      (headlightEnable w)
      else headlightEnable w.
Proof.
  intros Hc Hp. rewrite (_joyChanged_eq data w Hc Hp).
  eexists. split; [reflexivity |]. repeat split.
Qed.

Lemma pressed_same (data : list Z) (i : nat) :
  pressed (Some data) data i = false.
Proof.
  unfold pressed. destruct (nth_error data i) as [d |]; [| reflexivity].
  rewrite Z.eqb_refl. apply Bool.andb_false_r.
Qed.

(** X16.  Buttons are edge-triggered: a message equal to the previous one has
    no effect at all, whatever buttons are held down. *)
Theorem joy_unchanged_is_silent (data : list Z) (w : World) :
  _buttons (self w) = Some data ->
  _joyChanged data w = (inl tt, w).
Proof.
  intros H. rewrite _joyChanged_eq.
  - destruct w as [[prev up em ld tk] param effs].
    cbn [self _buttons headlightEnable effects] in *. subst prev.
    unfold toggled, joy_effects, set_buttons.
    cbn [_buttons _land _takeoff _emergency _update_params].
    rewrite !pressed_same.
    destruct ld, tk, param; cbn [app]; rewrite app_nil_r; reflexivity.
  - rewrite H. cbn [covers]. lia.
  - rewrite H, pressed_same. discriminate.
Qed.





Lemma button_calls (data : list Z) (i : nat) (w : World) :
  _land (self w) = None -> _takeoff (self w) = None ->
  self (snd (button data i w)) = self w /\
  exists new,
    effects (snd (button data i w)) = effects w ++ new /\
    Forall (calls_only [_emergency (self w); _update_params (self w)]) new.
Proof.
  intros Hl Ht.
  destruct w as [[prev up em ld tk] param effs].
  cbn [self _land _takeoff] in Hl, Ht. subst ld tk.
  joy_eval.
  destruct (nth_error data i) as [d |];
    destruct prev as [buttons |];
    try destruct (nth_error buttons i) as [b |];
    cbv beta iota;
    try destruct (d =? b)%Z;
    destruct i as [| [| [| [| [| i]]]]];
    try destruct (d =? 1)%Z;
    destruct param;
    cbn;
    (split; [reflexivity |]);
    (eexists; split;
     [ first [ symmetry; apply app_nil_r
             | rewrite <- ?app_assoc; reflexivity ]
     | repeat (first [apply Forall_nil | apply Forall_cons]); cbn; auto ]).
Qed.

Lemma for_each_calls (data : list Z) (l : list nat) (w : World) :
  _land (self w) = None -> _takeoff (self w) = None ->
  self (snd (for_each l (button data) w)) = self w /\
  exists new,
    effects (snd (for_each l (button data) w)) = effects w ++ new /\
    Forall (calls_only [_emergency (self w); _update_params (self w)]) new.
Proof.
  revert w. induction l as [| i l IH]; intros w Hl Ht.
  - cbn. split; [reflexivity |]. exists [].
    split; [symmetry; apply app_nil_r | constructor].
  - destruct (button_calls data i w Hl Ht) as (S1 & n1 & E1 & F1).
    cbn [for_each]. unfold bind.
    destruct (button data i w) as [[[] | e] w1].
    + cbn [snd] in S1, E1.
      destruct (IH w1) as (S2 & n2 & E2 & F2);
        [rewrite S1; exact Hl | rewrite S1; exact Ht |].
      rewrite S1 in S2, F2.
      split; [exact S2 |]. exists (n1 ++ n2).
      split; [rewrite E2, E1; symmetry; apply app_assoc |].
      apply Forall_app. split; assumption.
    + cbn [snd] in *. split; [exact S1 |]. exists n1. split; assumption.
Qed.

(** X19.  Without the flight controller ([use_controller] false) no message
    ever calls the land or the takeoff service: the only services the
    node calls are emergency and update_params, whether the message is
    handled to its end or raises. *)
Theorem joy_without_controller (data : list Z) (w : World) :
  _land (self w) = None -> _takeoff (self w) = None ->
  exists new,
    effects (snd (_joyChanged data w)) = effects w ++ new /\
    Forall (calls_only [_emergency (self w); _update_params (self w)]) new.
Proof.
  intros Hl Ht.
  destruct (for_each_calls data (seq 0 (List.length data)) w Hl Ht)
    as (S1 & n1 & E1 & F1).
  unfold _joyChanged, bind.
  destruct (for_each _ _ w) as [[[] | e] w1]; cbn [snd] in *.
  - exists n1. split; [exact E1 | exact F1].
  - exists n1. split; [exact E1 | exact F1].
Qed.

End DemoProps.

(** * The joystick node in front of the flight controller *)


(** * Evaluation of the further properties on concrete data *)

Lemma tick_transitions_witness :
  exists w',
    tick (T := rational_tf) clock_10ms (World_init "cf") = Ok (tt, w') /\
    state (self w') = Idle.
Proof.
  pose proof (tick_Idle (T := rational_tf) clock_10ms (World_init "cf")
                eq_refl) as E.
  eexists. split; [exact E |].
  exact (tick_transitions clock_10ms _ _ E).
Defined.

Lemma thrust_outside_TakingOff_witness :
  exists w',
    tick (T := rational_tf) clock_10ms
      (world_in Landing (sample_at 0.08) 700) = Ok (tt, w') /\
    thrust w' = 700%Z.
Proof.
  assert (Hz : vz (translation (sample_at 0.08)) <= 0.1)
    by (vm_compute; discriminate).
  pose proof (tick_Landing_touchdown (T := rational_tf) clock_10ms
                (world_in Landing (sample_at 0.08) 700) (sample_at 0.08)
                eq_refl eq_refl Hz) as E.
  eexists. split; [exact E |].
  apply (proj1 (thrust_outside_TakingOff (T := rational_tf) clock_10ms)
           (world_in Landing (sample_at 0.08) 700)).
  - discriminate.
  - exact E.
Defined.

Lemma tick_goal_witness :
  exists w',
    tick (T := rational_tf) clock_10ms
      (world_in Landing (sample_at 0.08) 0) = Ok (tt, w') /\
    goal (self w') = mkPose (mkVector3 0 0 0.05) (mkQuaternion 0 0 0 0).
Proof.
  assert (Hz : vz (translation (sample_at 0.08)) <= 0.1)
    by (vm_compute; discriminate).
  pose proof (tick_Landing_touchdown (T := rational_tf) clock_10ms
                (world_in Landing (sample_at 0.08) 0) (sample_at 0.08)
                eq_refl eq_refl Hz) as E.
  eexists. split; [exact E |].
  exact (tick_goal clock_10ms _ _ E).
Defined.

Lemma tick_commands_witness :
  exists w' msgs,
    tick (T := rational_tf) clock_10ms
      (world_in Landing (sample_at 0.08) 0) = Ok (tt, w') /\
    pubNav w' = [] ++ msgs /\
    Forall (fun m => vx (angular m) = 0 /\ vy (angular m) = 0) msgs.
Proof.
  assert (Hz : vz (translation (sample_at 0.08)) <= 0.1)
    by (vm_compute; discriminate).
  pose proof (tick_Landing_touchdown (T := rational_tf) clock_10ms
                (world_in Landing (sample_at 0.08) 0) (sample_at 0.08)
                eq_refl eq_refl Hz) as E.
  destruct (tick_commands clock_10ms _ _ E) as (msgs & P & _ & F).
  eexists; exists msgs. split; [exact E |]. split; [exact P | exact F].
Defined.

Lemma tick_logs_warnings_only_witness :
  exists w' lg,
    tick (T := rational_tf) clock_10ms
      (world_in Automatic (sample_at 0.5) 0) = Ok (tt, w') /\
    rosout w' = [] ++ lg /\ Forall (fun m => level m = WARN) lg.
Proof.
  pose proof (tick_Automatic (T := rational_tf) clock_10ms
                (world_in Automatic (sample_at 0.5) 0) (sample_at 0.5)
                eq_refl eq_refl) as E.
  destruct (tick_logs_warnings_only clock_10ms _ _ E) as (lg & P & F).
  eexists; exists lg. split; [exact E |]. split; [exact P | exact F].
Defined.

Lemma targetZ_is_never_read_witness :
  exists w1 w2,
    tick (T := rational_tf) clock_10ms
      (world_in Automatic (sample_at 0.5) 0) = Ok (tt, w1) /\
    tick (T := rational_tf) clock_10ms
      (retarget (Some 3) (world_in Automatic (sample_at 0.5) 0))
      = Ok (tt, w2) /\
    pubNav w2 = pubNav w1.
Proof.
  pose proof (tick_Automatic (T := rational_tf) clock_10ms
                (world_in Automatic (sample_at 0.5) 0) (sample_at 0.5)
                eq_refl eq_refl) as E.
  destruct (targetZ_is_never_read clock_10ms _ _ (Some 3) E)
    as (w2 & E2 & P & _).
  eexists; exists w2. split; [exact E |]. split; [exact E2 | exact P].
Defined.

Lemma land_on_the_ground_witness :
  exists w',
    (_land ;; tick (T := rational_tf) clock_10ms)
      (world_in Automatic (sample_at 0.08) 0) = Ok (tt, w') /\
    state (self w') = Idle /\
    pubNav w' = [] ++ [Twist_0; Twist_0].
Proof.
  destruct (land_on_the_ground (T := rational_tf) clock_10ms
              (world_in Automatic (sample_at 0.08) 0) (sample_at 0.08))
    as (w' & E & S & P & _).
  - reflexivity.
  - vm_compute. discriminate.
  - exists w'. split; [exact E |]. split; [exact S | exact P].
Defined.

Lemma takeoff_request_witness :
  exists w',
    (_takeoff ;; tick (T := rational_tf) clock_10ms)
      (world_in Idle (sample_at 0) 300) = Ok (tt, w') /\
    state (self w') = TakingOff /\
    pubNav w' = [] ++ [set_linear_z Twist_0 (inject_Z (300 + 100))] /\
    thrust w' = (300 + 100)%Z.
Proof.
  apply (proj2 (takeoff_request (T := rational_tf) clock_10ms
                  (world_in Idle (sample_at 0) 300) (sample_at 0) eq_refl)).
  - vm_compute. discriminate.
  - vm_compute. discriminate.
Defined.

Lemma ramp_iterations_witness :
  exists w',
    control_loop (T := rational_tf) clock_10ms (repeat [] 3)
      (world_in TakingOff (sample_at 0) 0) = Ok (tt, w') /\
    self w' = self (world_in TakingOff (sample_at 0) 0) /\
    thrust w' = (0 + 100 * Z.of_nat 3)%Z /\
    pubNav w' = [] ++ ramp_commands 0 3.
Proof.
  apply (ramp_iterations (T := rational_tf) clock_10ms 3
           (world_in TakingOff (sample_at 0) 0) (sample_at 0)).
  - reflexivity.
  - reflexivity.
  - vm_compute. discriminate.
  - vm_compute. discriminate.
Defined.

Lemma last_callback_wins_witness :
  exists w',
    deliver_all ([goal_msg Pose_0]
                 ++ goal_msg (mkPose (mkVector3 1 0 1) (mkQuaternion 0 0 0 1))
                 :: [takeoff_srv]) (World_init "cf") = Ok (tt, w') /\
    goal (self w') = mkPose (mkVector3 1 0 1) (mkQuaternion 0 0 0 1).
Proof.
  apply (proj1 (last_callback_wins [goal_msg Pose_0] [takeoff_srv]
                  (World_init "cf"))).
  repeat constructor.
Defined.

Lemma automatic_is_steady_witness :
  exists w',
    control_loop (T := rational_tf) clock_10ms [[]; [goal_msg Pose_0]]
      (world_in Automatic (sample_at 0.5) 0) = Ok (tt, w') /\
    state (self w') = Automatic /\
    List.length (pubNav w') = (0 + 2)%nat /\
    thrust w' = 0%Z.
Proof.
  apply (automatic_is_steady (T := rational_tf) clock_10ms
           [[]; [goal_msg Pose_0]] (world_in Automatic (sample_at 0.5) 0)).
  - reflexivity.
  - discriminate.
  - repeat constructor.
Defined.

Lemma wait_ends_with_sample_witness :
  exists w',
    wait_for_tf ([[takeoff_srv]] ++ [tf_msg (sample_at 0)] :: [[]; []])
      (World_init "cf") = Ok ([[]; []], w') /\
    lastTf (self w') <> None.
Proof.
  destruct (wait_ends_with_sample [[takeoff_srv]] [tf_msg (sample_at 0)]
              [[]; []] (World_init "cf"))
    as (w' & E & H & _).
  - reflexivity.
  - repeat constructor.
  - constructor. reflexivity.
  - exists w'. split; [exact E | exact H].
Defined.

Lemma run_waits_for_sample_witness :
  exists w',
    run (T := rational_tf) clock_10ms [[takeoff_srv]; []] (World_init "cf")
      = Ok (tt, w') /\
    pubNav w' = [] /\ count_warn (rosout w') = 2%nat.
Proof.
  destruct (run_waits_for_sample (T := rational_tf) clock_10ms
              [[takeoff_srv]; []] (World_init "cf"))
    as (w' & E & _ & P & _ & C).
  - reflexivity.
  - repeat constructor.
  - exists w'. split; [exact E |]. split; [exact P | exact C].
Defined.

Lemma tick_needs_sample_witness :
  tick (T := rational_tf) clock_10ms
    (mkWorld (set_state (Controller_init "cf") TakingOff) 0 0 [] [])
  = Raise AttributeError.
Proof.
  apply (tick_needs_sample (T := rational_tf) clock_10ms
           (mkWorld (set_state (Controller_init "cf") TakingOff) 0 0 [] [])).
  - reflexivity.
  - discriminate.
Defined.

Lemma joy_message_effects_witness :
  exists w',
    Demo._joyChanged [1; 0; 1; 0; 1]%Z
      (Demo.Controller_init true (Some (Demo.PInt 0))) = (inl tt, w') /\
    Demo.headlightEnable w' = Some (Demo.PBool true).
Proof.
  destruct (DemoProps.joy_message_effects [1; 0; 1; 0; 1]%Z
              (Demo.Controller_init true (Some (Demo.PInt 0))))
    as (w' & E & _ & _ & P).
  - exact I.
  - discriminate.
  - exists w'. split; [exact E | exact P].
Defined.

Lemma joy_unchanged_is_silent_witness :
  Demo._joyChanged [1; 1; 1]%Z
    (Demo.mkWorld
       (Demo.set_buttons (Demo.self (Demo.Controller_init true None))
                         (Some [1; 1; 1]%Z))
       None [])
  = (inl tt,
     Demo.mkWorld
       (Demo.set_buttons (Demo.self (Demo.Controller_init true None))
                         (Some [1; 1; 1]%Z))
       None []).
Proof.
  apply DemoProps.joy_unchanged_is_silent. reflexivity.
Defined.



Lemma joy_without_controller_witness :
  exists new,
    Demo.effects (snd (Demo._joyChanged [1; 1; 1]%Z
                         (Demo.Controller_init false None)))
    = Demo.effects (Demo.Controller_init false None) ++ new /\
    Forall (Demo.calls_only [Demo.proxy "emergency";
                             Demo.proxy "update_params"]) new.
Proof.
  apply (DemoProps.joy_without_controller [1; 1; 1]%Z
           (Demo.Controller_init false None)); reflexivity.
Defined.

